(** * MGNREGA district tracker: the acquisition service of the server

    A shallow embedding of [MGNREGAService] (the server file of the
    repository): the district registry, the name matching and scoring of
    [processAPIData] and [calculatePerformanceScore], the seeded generator
    [generateMockData], the SQLite-backed cache ([getCachedData],
    [setCachedData]) and the orchestration in [fetchDistrictData] and
    [getDistrictHistory].

    Conventions of the model.
    - A JavaScript number is either [NaN] or a finite value, kept as an
      exact rational; binary64 rounding, the infinities and the negative
      zero are outside the model.
    - A JavaScript string is a [string] whose characters are the code
      units (below 256).
    - [Math.sin] is a parameter of the development: the generator is
      verified for every function from seeds to numbers.
    - Promises are run to completion: an [async] function is a function
      of the cache table and of what its environment does during the call
      (clock readings, database errors, the HTTP response), returning
      either a value or the thrown error. *)

From Stdlib Require Import ZArith QArith Qround Lia Lqa List Bool Ascii String.
From stdpp Require Import gmap strings list fin_maps pretty.
Import ListNotations.

Local Open Scope string_scope.
Local Open Scope Z_scope.

(** ** JavaScript values *)

Module JS.

Inductive number : Type :=
| NaN
| Num (q : Q).

Inductive value : Type :=
| JUndefined
| JNull
| JBool (b : bool)
| JNumber (n : number)
| JString (s : string).

(** A value read from JSON text (arrays and objects are not needed for
    the fields the service reads). *)
Inductive json : Type :=
| JsNull
| JsBool (b : bool)
| JsNum (q : Q)
| JsStr (s : string).

Definition of_json (j : json) : value :=
  match j with
  | JsNull => JNull
  | JsBool b => JBool b
  | JsNum q => JNumber (Num q)
  | JsStr s => JString s
  end.

Definition of_Z (z : Z) : number := Num (inject_Z z).

(** Arithmetic; results are kept in lowest terms so that equal numbers are
    equal terms. *)
Definition lift2 (f : Q -> Q -> Q) (a b : number) : number :=
  match a, b with
  | Num x, Num y => Num (Qred (f x y))
  | _, _ => NaN
  end.

Definition add := lift2 Qplus.
Definition sub := lift2 Qminus.
Definition mul := lift2 Qmult.

(** [a / b]. A zero divisor gives an infinity or NaN in JavaScript; the
    model has no infinities and answers [NaN]. The program divides by
    positive numbers only (see [generateMockData_households_positive]
    and the guards of the source). *)
Definition div (a b : number) : number :=
  match a, b with
  | Num x, Num y => if Qeq_bool y 0 then NaN else Num (Qred (Qdiv x y))
  | _, _ => NaN
  end.

(** [Math.floor], [Math.round] (half up) and [Math.min]. *)
Definition floor (a : number) : number :=
  match a with
  | Num x => of_Z (Qfloor x)
  | NaN => NaN
  end.

Definition round (a : number) : number :=
  match a with
  | Num x => of_Z (Qfloor (Qplus x (1 # 2)))
  | NaN => NaN
  end.

(** [a > b]: false as soon as one side is NaN. *)
Definition gt (a b : number) : bool :=
  match a, b with
  | Num x, Num y => negb (Qle_bool x y)
  | _, _ => false
  end.

(** Truthiness, as used by [||], [&&], [if] and [?:]. *)
Definition truthy_number (a : number) : bool :=
  match a with
  | NaN => false
  | Num x => negb (Qeq_bool x 0)
  end.

Definition truthy (v : value) : bool :=
  match v with
  | JUndefined | JNull => false
  | JBool b => b
  | JNumber n => truthy_number n
  | JString s => negb (String.eqb s "")
  end.

(** [n || 0] on numbers. *)
Definition or_zero (a : number) : number :=
  if truthy_number a then a else of_Z 0.

End JS.

Export JS.

(** ** String built-ins used by the service *)

Definition code_of (c : ascii) : Z := Z.of_N (N_of_ascii c).

(** [s.charCodeAt(i)]: NaN (here [None]) outside the string. *)
Definition charCodeAt (s : string) (i : nat) : option Z :=
  match String.get i s with
  | Some c => Some (code_of c)
  | None => None
  end.

(** [s.toLowerCase()] on the letters A to Z. *)
Definition lower_char (c : ascii) : ascii :=
  let n := code_of c in
  if (65 <=? n) && (n <=? 90) then ascii_of_N (Z.to_N (n + 32)) else c.

Fixpoint toLowerCase (s : string) : string :=
  match s with
  | EmptyString => EmptyString
  | String c r => String (lower_char c) (toLowerCase r)
  end.

(** The class [\s] of regular expressions, among code units below 256:
    tab, line feed, vertical tab, form feed, carriage return, space and
    the no-break space. *)
Definition is_whitespace (c : ascii) : bool :=
  let n := code_of c in
  ((9 <=? n) && (n <=? 13)) || (n =? 32) || (n =? 160).

(** [s.replace(/\s+/g, r)]: every maximal run of white space becomes [r].
    The flag tells whether the previous character was white space. *)
Fixpoint replace_ws_from (in_run : bool) (r s : string) : string :=
  match s with
  | EmptyString => EmptyString
  | String c t =>
      if is_whitespace c
      then (if in_run then replace_ws_from true r t
            else String.append r (replace_ws_from true r t))
      else String c (replace_ws_from false r t)
  end.

Definition replace_whitespace (r s : string) : string :=
  replace_ws_from false r s.

(** [s.includes(sub)]. *)
Fixpoint includes (s sub : string) : bool :=
  String.prefix sub s ||
  match s with
  | EmptyString => false
  | String _ t => includes t sub
  end.

(** [s.split('-')]: the pieces between the dashes; never empty. *)
Fixpoint split_dash_from (acc : string) (s : string) : list string :=
  match s with
  | EmptyString => [String.rev acc]
  | String c t =>
      if Ascii.eqb c "-"%char
      then String.rev acc :: split_dash_from EmptyString t
      else split_dash_from (String c acc) t
  end.

Definition split_dash (s : string) : list string :=
  split_dash_from EmptyString s.

(** An element of an array of strings, [undefined] past its end. *)
Definition array_get (l : list string) (i : nat) : value :=
  match nth_error l i with
  | Some s => JString s
  | None => JUndefined
  end.

(** *** Number parsing *)

Definition digit_of (c : ascii) : option Z :=
  let n := code_of c in
  if (48 <=? n) && (n <=? 57) then Some (n - 48) else None.

Definition hex_digit_of (c : ascii) : option Z :=
  let n := code_of c in
  if (48 <=? n) && (n <=? 57) then Some (n - 48)
  else if (97 <=? n) && (n <=? 102) then Some (n - 87)
  else if (65 <=? n) && (n <=? 70) then Some (n - 55)
  else None.

(** The longest prefix of digits: their values and the rest. *)
Fixpoint span_digits (digit : ascii -> option Z) (s : string)
  : list Z * string :=
  match s with
  | EmptyString => ([], EmptyString)
  | String c t =>
      match digit c with
      | Some d => let '(ds, rest) := span_digits digit t in (d :: ds, rest)
      | None => ([], s)
      end
  end.

Definition digits_value (radix : Z) (ds : list Z) : Z :=
  fold_left (fun acc d => acc * radix + d) ds 0.

Fixpoint skip_whitespace (s : string) : string :=
  match s with
  | String c t => if is_whitespace c then skip_whitespace t else s
  | EmptyString => s
  end.

(** An optional sign: the factor and the rest. *)
Definition read_sign (s : string) : Z * string :=
  match s with
  | String "-"%char t => (-1, t)
  | String "+"%char t => (1, t)
  | _ => (1, s)
  end.

(** [parseInt(s)] with no radix: decimal, or hexadecimal after [0x]. *)
Definition parseInt_string (s : string) : option Z :=
  let '(sign, body) := read_sign (skip_whitespace s) in
  let '(radix, digit, body) :=
    match body with
    | String "0"%char (String "x"%char t) => (16, hex_digit_of, t)
    | String "0"%char (String "X"%char t) => (16, hex_digit_of, t)
    | _ => (10, digit_of, body)
    end in
  match span_digits digit body with
  | ([], _) => None
  | (ds, _) => Some (sign * digits_value radix ds)
  end.

(** [parseInt(v)]: the argument is first turned into a string. For a
    number this model truncates towards zero, which is what the decimal
    rendering of a number between 1e-6 and 1e21 in size gives. *)
Definition parseInt (v : value) : option Z :=
  match v with
  | JString s => parseInt_string s
  | JNumber (Num q) => Some (Z.quot (Qnum q) (Z.pos (Qden q)))
  | _ => None
  end.

(** [parseFloat(s)]: sign, digits, fraction, exponent. The literal
    [Infinity] is not in the model and reads as NaN. *)
Definition parseFloat_string (s : string) : number :=
  let '(sign, body) := read_sign (skip_whitespace s) in
  let '(ints, after_int) := span_digits digit_of body in
  let '(fracs, after_frac) :=
    match after_int with
    | String "."%char t => span_digits digit_of t
    | _ => ([], after_int)
    end in
  match ints, fracs with
  | [], [] => NaN
  | _, _ =>
      let mantissa :=
        Qdiv (inject_Z (digits_value 10 (ints ++ fracs)))
             (inject_Z (10 ^ Z.of_nat (length fracs))) in
      let exponent :=
        match after_frac with
        | String c t =>
            if Ascii.eqb c "e"%char || Ascii.eqb c "E"%char then
              let '(esign, ebody) := read_sign t in
              match span_digits digit_of ebody with
              | ([], _) => 0
              | (es, _) => esign * digits_value 10 es
              end
            else 0
        | EmptyString => 0
        end in
      Num (Qred (inject_Z sign * mantissa * Qpower (inject_Z 10) exponent)%Q)
  end.

Definition parseFloat (v : value) : number :=
  match v with
  | JString s => parseFloat_string s
  | JNumber n => n
  | _ => NaN
  end.

(** The text of [parseInt(..) + 1] inside a template literal. *)
Definition int_to_string (n : option Z) : string :=
  match n with
  | Some z => pretty z
  | None => "NaN"
  end.

(** ** Clock, calendar and the two renderings of an instant

    An instant is a number of milliseconds since 1970-01-01T00:00Z, as
    [Date.now()] returns it. The model covers instants from the epoch to
    the end of year 9999, where both renderings have four-digit years. *)

Record date : Type := Date { dyear : Z; dmonth : Z; dday : Z }.

Definition is_leap (y : Z) : bool :=
  (y mod 4 =? 0) && (negb (y mod 100 =? 0) || (y mod 400 =? 0)).

Definition days_in_month (y m : Z) : Z :=
  if m =? 2 then (if is_leap y then 29 else 28)
  else if (m =? 4) || (m =? 6) || (m =? 9) || (m =? 11) then 30
  else 31.

Definition next_day (d : date) : date :=
  if dday d <? days_in_month (dyear d) (dmonth d)
  then Date (dyear d) (dmonth d) (dday d + 1)
  else if dmonth d <? 12 then Date (dyear d) (dmonth d + 1) 1
  else Date (dyear d + 1) 1 1.

Definition epoch : date := Date 1970 1 1.

(** The UTC date [n] days after the epoch. *)
Definition civil_from_days (n : Z) : date := Z.iter n next_day epoch.

Definition ms_per_day : Z := 86400000.

Definition utc_date (t : Z) : date := civil_from_days (t / ms_per_day).

Definition digit_char (d : Z) : ascii := ascii_of_N (Z.to_N (48 + d mod 10)).

Definition pad2 (n : Z) : string :=
  String (digit_char (n / 10)) (String (digit_char n) EmptyString).

Definition pad3 (n : Z) : string := String (digit_char (n / 100)) (pad2 n).

Definition pad4 (n : Z) : string := String.append (pad2 (n / 100)) (pad2 n).

Definition date_string (d : date) : string :=
  String.append (pad4 (dyear d))
    (String "-" (String.append (pad2 (dmonth d)) (String "-" (pad2 (dday d))))).

(** HH:MM:SS of an instant. *)
Definition clock_string (t : Z) : string :=
  let ms := t mod ms_per_day in
  String.append (pad2 (ms / 3600000))
    (String ":" (String.append (pad2 (ms / 60000 mod 60))
       (String ":" (pad2 (ms / 1000 mod 60))))).

(** [new Date(t).toISOString()]. *)
Definition toISOString (t : Z) : string :=
  String.append (date_string (utc_date t))
    (String "T" (String.append (clock_string t)
       (String "." (String.append (pad3 (t mod 1000)) "Z")))).

(** SQLite's [datetime('now')] when the clock reads [t]. *)
Definition sqlite_datetime (t : Z) : string :=
  String.append (date_string (utc_date t)) (String " " (clock_string t)).

(** [a > b] between two TEXT values in SQLite (BINARY collation: byte by
    byte, then by length). The column [expires_at] holds the text that
    [setCachedData] bound, and [datetime] returns text, so this is the
    comparison of the [SELECT] in [getCachedData]. *)
Definition text_gt (a b : string) : bool :=
  match String.compare a b with
  | Gt => true
  | _ => false
  end.

(** A month counted from year 0: [moment().subtract(i, 'months')] moves
    it back by [i], and [format('YYYY-MM')] renders it (years 0 to
    9999). *)
Definition month_index (d : date) : Z := dyear d * 12 + (dmonth d - 1).

Definition format_YYYY_MM (idx : Z) : string :=
  String.append (pad4 (idx / 12)) (String "-" (pad2 (idx mod 12 + 1))).

(** ** Errors *)

(** The outcome of a call that may throw. *)
Inductive result (A : Type) : Type :=
| Ok (a : A)
| Throw (message : string).

Arguments Ok {A} a.
Arguments Throw {A} message.

Definition bind {A B : Type} (r : result A) (k : A -> result B) : result B :=
  match r with
  | Ok a => k a
  | Throw m => Throw m
  end.

Notation "'let*' x ':=' r 'in' k" := (bind r (fun x => k))
  (at level 10, x name, r at level 99, k at level 200).

Definition is_ok {A : Type} (r : result A) : bool :=
  match r with Ok _ => true | Throw _ => false end.

(** ** The district registry *)

Record District : Type := mkDistrict {
  code : string;
  name : string;
  lat : Q;
  lng : Q
}.

Definition andhraPradeshDistricts : list District := [
  mkDistrict "AP001" "Anantapur" (146819 # 10000) (776006 # 10000);
  mkDistrict "AP002" "Chittoor" (132156 # 10000) (791004 # 10000);
  mkDistrict "AP003" "East Godavari" (169454 # 10000) (822382 # 10000);
  mkDistrict "AP004" "Guntur" (163067 # 10000) (804365 # 10000);
  mkDistrict "AP005" "Krishna" (161667 # 10000) (811333 # 10000);
  mkDistrict "AP006" "Kurnool" (158300 # 10000) (780500 # 10000);
  mkDistrict "AP007" "Nellore" (144415 # 10000) (799864 # 10000);
  mkDistrict "AP008" "Prakasam" (155067 # 10000) (793200 # 10000);
  mkDistrict "AP009" "Srikakulam" (182989 # 10000) (838975 # 10000);
  mkDistrict "AP010" "Visakhapatnam" (176868 # 10000) (832185 # 10000);
  mkDistrict "AP011" "Vizianagaram" (181167 # 10000) (834167 # 10000);
  mkDistrict "AP012" "West Godavari" (169454 # 10000) (812382 # 10000);
  mkDistrict "AP013" "YSR Kadapa" (144667 # 10000) (788167 # 10000)
].

(** [andhraPradeshDistricts.find(d => d.code === districtCode)]. *)
Definition find_district (districtCode : string) : option District :=
  List.find (fun d => String.eqb (code d) districtCode) andhraPradeshDistricts.

(** ** Upstream rows and bundles *)

(** A row of [response.data.records]: an object read from JSON. A field
    that is absent reads as [undefined]. *)
Definition field (r : gmap string json) (k : string) : value :=
  match r !! k with
  | Some j => of_json j
  | None => JUndefined
  end.

(** [a || b] on values. *)
Definition or_value (a b : value) : value := if truthy a then a else b.

(** [parseInt(v) || 0]. *)
Definition int_or_zero (v : value) : number :=
  match parseInt v with
  | Some z => of_Z z
  | None => of_Z 0
  end.

(** [parseFloat(v) || 0]. *)
Definition float_or_zero (v : value) : number := or_zero (parseFloat v).

(** The object returned by [processAPIData] and [generateMockData]. *)
Record Bundle : Type := mkBundle {
  district_code : string;
  district_name : value;
  month_year : string;
  total_households : value;
  total_person_days : value;
  total_amount_spent : value;
  avg_days_per_household : value;
  avg_amount_per_household : value;
  performance_score : value;
  data_source : string;
  last_updated : string;
  financial_year : value;
  month : value;
  average_wage_rate : value;
  women_persondays : value;
  sc_persondays : value;
  st_persondays : value;
  completed_works : value;
  ongoing_works : value;
  total_individuals_worked : value;
  total_job_cards : value;
  households_100_days : value;
  differently_abled_worked : value;
  payment_within_15_days : value
}.

(** ** The performance score *)

Module Metrics.

(** The object literal handed to [calculatePerformanceScore]. *)
Record data : Type := mk {
  total_households : number;
  total_person_days : number;
  total_amount_spent : number;
  avg_days : number;
  wage_rate : number;
  women_persondays : number;
  sc_persondays : number;
  st_persondays : number;
  completed_works : number;
  ongoing_works : number
}.

End Metrics.

(** Household coverage score (0-20 points). *)
Definition household_points (households : number) : Z :=
  if JS.gt households (of_Z 30000) then 20
  else if JS.gt households (of_Z 20000) then 15
  else if JS.gt households (of_Z 10000) then 10
  else if JS.gt households (of_Z 5000) then 5
  else 0.

(** [data.total_households > 0 ? data.total_person_days /
    data.total_households : 0]. *)
Definition avgDays (d : Metrics.data) : number :=
  if JS.gt (Metrics.total_households d) (of_Z 0)
  then JS.div (Metrics.total_person_days d) (Metrics.total_households d)
  else of_Z 0.

(** Person days efficiency (0-20 points). *)
Definition efficiency_points (avg : number) : Z :=
  if JS.gt avg (of_Z 25) then 20
  else if JS.gt avg (of_Z 20) then 15
  else if JS.gt avg (of_Z 15) then 10
  else if JS.gt avg (of_Z 10) then 5
  else 0.

Definition calculatePerformanceScore (d : Metrics.data) : Z :=
  let score := 60 in
  let score := score + household_points (Metrics.total_households d) in
  let score := score + efficiency_points (avgDays d) in
  Z.min score 100.

(** ** Matching upstream rows and assembling the bundle *)

(** [record.district_name?.toLowerCase()]: [undefined] when the field is
    missing or null, a TypeError when it is not a string. *)
Definition lowered_district_name (record : gmap string json)
  : result (option string) :=
  match field record "district_name" with
  | JUndefined | JNull => Ok None
  | JString s => Ok (Some (toLowerCase s))
  | _ => Throw "record.district_name?.toLowerCase is not a function"
  end.

(** Create multiple possible matches for district names, then the special
    cases for known API variations. *)
Definition possibleNames (targetDistrict : District) : list string :=
  [ toLowerCase (name targetDistrict);
    replace_whitespace "" (toLowerCase (name targetDistrict));
    replace_whitespace "." (toLowerCase (name targetDistrict)) ]
  ++ (if String.eqb (code targetDistrict) "AP013"
      then ["y.s.r"; "ysr"; "kadapa"; "y s r"] else [])
  ++ (if String.eqb (code targetDistrict) "AP004"
      then ["ntr"; "guntur"] else [])
  ++ (if String.eqb (code targetDistrict) "AP012"
      then ["west godavari"; "westgodavari"] else [])
  ++ (if String.eqb (code targetDistrict) "AP003"
      then ["east godavari"; "eastgodavari"] else []).

(** The callback of [records.filter]. *)
Definition matches_district (districtCode : string)
  (record : gmap string json) : result bool :=
  let* districtName := lowered_district_name record in
  match find_district districtCode, districtName with
  | Some targetDistrict, Some districtName =>
      if String.eqb districtName "" then Ok false
      else Ok (existsb (fun name => includes districtName name)
                 (possibleNames targetDistrict))
  | _, _ => Ok false
  end.

(** [filter] with a callback that may throw: the first throw ends it. *)
Fixpoint filter_result {A : Type} (p : A -> result bool) (l : list A)
  : result (list A) :=
  match l with
  | [] => Ok []
  | x :: rest =>
      let* keep := p x in
      let* kept := filter_result p rest in
      Ok (if keep then x :: kept else kept)
  end.

Definition no_data_message (districtCode : string) : string :=
  String.append "No data found for district "
    (String.append districtCode
       (String.append " ("
          (String.append
             (match find_district districtCode with
              | Some d => name d
              | None => "undefined"
              end) ")"))).

(** [processAPIData(records, districtCode, monthYear)]; [now] is the
    clock reading of [new Date()]. *)
Definition processAPIData (now : Z) (records : list (gmap string json))
  (districtCode monthYear : string) : result Bundle :=
  let* districtRecords := filter_result (matches_district districtCode) records in
  match districtRecords with
  | [] => Throw (no_data_message districtCode)
  | latestRecord :: _ =>
      let district := find_district districtCode in
      let totalPersonDays :=
        int_or_zero (field latestRecord "Persondays_of_Central_Liability_so_far") in
      let totalHouseholds :=
        int_or_zero (field latestRecord "Total_Households_Worked") in
      let totalAmountSpent := float_or_zero (field latestRecord "Total_Exp") in
      Ok {|
        district_code := districtCode;
        district_name :=
          or_value (match district with
                    | Some d => JString (name d)
                    | None => JUndefined
                    end)
            (or_value (field latestRecord "district_name") (JString "Unknown"));
        month_year := monthYear;
        total_households := JNumber totalHouseholds;
        total_person_days := JNumber totalPersonDays;
        total_amount_spent := JNumber totalAmountSpent;
        avg_days_per_household :=
          JNumber (float_or_zero
            (field latestRecord "Average_days_of_employment_provided_per_Household"));
        avg_amount_per_household :=
          JNumber (if JS.gt totalHouseholds (of_Z 0)
                   then JS.div (JS.round (JS.mul (JS.div totalAmountSpent totalHouseholds)
                                            (of_Z 100)))
                          (of_Z 100)
                   else of_Z 0);
        performance_score :=
          JNumber (of_Z (calculatePerformanceScore {|
            Metrics.total_households := totalHouseholds;
            Metrics.total_person_days := totalPersonDays;
            Metrics.total_amount_spent := totalAmountSpent;
            Metrics.avg_days :=
              float_or_zero
                (field latestRecord "Average_days_of_employment_provided_per_Household");
            Metrics.wage_rate :=
              float_or_zero (field latestRecord "Average_Wage_rate_per_day_per_person");
            Metrics.women_persondays := int_or_zero (field latestRecord "Women_Persondays");
            Metrics.sc_persondays := int_or_zero (field latestRecord "SC_persondays");
            Metrics.st_persondays := int_or_zero (field latestRecord "ST_persondays");
            Metrics.completed_works :=
              int_or_zero (field latestRecord "Number_of_Completed_Works");
            Metrics.ongoing_works :=
              int_or_zero (field latestRecord "Number_of_Ongoing_Works")
          |}));
        data_source := "data.gov.in";
        last_updated := toISOString now;
        financial_year := field latestRecord "fin_year";
        month := field latestRecord "month";
        average_wage_rate :=
          JNumber (float_or_zero
            (field latestRecord "Average_Wage_rate_per_day_per_person"));
        women_persondays := JNumber (int_or_zero (field latestRecord "Women_Persondays"));
        sc_persondays := JNumber (int_or_zero (field latestRecord "SC_persondays"));
        st_persondays := JNumber (int_or_zero (field latestRecord "ST_persondays"));
        completed_works :=
          JNumber (int_or_zero (field latestRecord "Number_of_Completed_Works"));
        ongoing_works :=
          JNumber (int_or_zero (field latestRecord "Number_of_Ongoing_Works"));
        total_individuals_worked :=
          JNumber (int_or_zero (field latestRecord "Total_Individuals_Worked"));
        total_job_cards :=
          JNumber (int_or_zero (field latestRecord "Total_No_of_JobCards_issued"));
        households_100_days :=
          JNumber (int_or_zero
            (field latestRecord "Total_No_of_HHs_completed_100_Days_of_Wage_Employment"));
        differently_abled_worked :=
          JNumber (int_or_zero (field latestRecord "Differently_abled_persons_worked"));
        payment_within_15_days :=
          JNumber (float_or_zero
            (field latestRecord "percentage_payments_gererated_within_15_days"))
      |}
  end.

(** The row of the end-to-end scenario. *)
Definition ntr_row : gmap string json :=
  <[ "district_name" := JsStr "NTR" ]>
  (<[ "Total_Exp" := JsNum (25 # 2) ]>
  (<[ "Total_Households_Worked" := JsNum (inject_Z 20000) ]>
  (<[ "Persondays_of_Central_Liability_so_far" := JsNum (inject_Z 450000) ]> ∅))).

(** ** The service *)

(** What [axios.get] does: it rejects, or resolves to a response whose
    [data.records] is an array of rows or is missing. *)
Inductive response : Type :=
| NetworkError (message : string)
| Response (records : option (list (gmap string json))).

(** What the surroundings do during one call of [fetchDistrictData]:
    the error (if any) that SQLite reports to [db.get] and to [db.run],
    the clock when [datetime("now")], [new Date()] and [Date.now()] are
    evaluated, and the upstream answer to the [fin_year] and [month]
    filters. *)
Record Env : Type := mkEnv {
  db_get_error : option string;
  db_run_error : option string;
  clock_select : Z;
  clock_data : Z;
  clock_insert : Z;
  axios_get : string -> value -> response
}.

(** A row of the table [api_cache]. The column [data] holds the text
    written by [JSON.stringify]; the model keeps the bundle that
    [JSON.parse] reads back from it. Only [setCachedData] writes to the
    table, so every row holds a bundle. *)
Record CacheRow : Type := mkRow {
  data : Bundle;
  expires_at : string
}.

(** One property through [JSON.stringify] and [JSON.parse]: NaN is
    written as [null]; an [undefined] property is left out and reads as
    [undefined] again. *)
Definition json_value (v : value) : value :=
  match v with
  | JNumber NaN => JNull
  | _ => v
  end.

Definition JSON_roundtrip (b : Bundle) : Bundle := {|
  district_code := district_code b;
  district_name := json_value (district_name b);
  month_year := month_year b;
  total_households := json_value (total_households b);
  total_person_days := json_value (total_person_days b);
  total_amount_spent := json_value (total_amount_spent b);
  avg_days_per_household := json_value (avg_days_per_household b);
  avg_amount_per_household := json_value (avg_amount_per_household b);
  performance_score := json_value (performance_score b);
  data_source := data_source b;
  last_updated := last_updated b;
  financial_year := json_value (financial_year b);
  month := json_value (month b);
  average_wage_rate := json_value (average_wage_rate b);
  women_persondays := json_value (women_persondays b);
  sc_persondays := json_value (sc_persondays b);
  st_persondays := json_value (st_persondays b);
  completed_works := json_value (completed_works b);
  ongoing_works := json_value (ongoing_works b);
  total_individuals_worked := json_value (total_individuals_worked b);
  total_job_cards := json_value (total_job_cards b);
  households_100_days := json_value (households_100_days b);
  differently_abled_worked := json_value (differently_abled_worked b);
  payment_within_15_days := json_value (payment_within_15_days b)
|}.

Module History.

(** The objects pushed by [getDistrictHistory]. *)
Record entry : Type := mk {
  month_year : string;
  total_households : value;
  total_person_days : value;
  total_amount_spent : value;
  avg_days_per_household : value;
  avg_amount_per_household : value;
  performance_score : value;
  data_source : string
}.

End History.

(** What a call leaves behind: its outcome, the cache table after it, and
    the upstream requests it issued (the two filters of each). *)
Record Run (A : Type) : Type := mkRun {
  outcome : result A;
  table : gmap string CacheRow;
  requests : list (string * value)
}.

Arguments mkRun {A} outcome table requests.
Arguments outcome {A} r.
Arguments table {A} r.
Arguments requests {A} r.

Definition monthNames : list string :=
  ["Jan"; "Feb"; "Mar"; "Apr"; "May"; "Jun";
   "Jul"; "Aug"; "Sep"; "Oct"; "Nov"; "Dec"].

(** [monthNames[parseInt(month) - 1]]. *)
Definition monthName_of (month : value) : value :=
  match parseInt month with
  | Some m => if 1 <=? m then array_get monthNames (Z.to_nat (m - 1)) else JUndefined
  | None => JUndefined
  end.

(** [`${year}-${parseInt(year) + 1}`]. *)
Definition finYear_of (year : string) : string :=
  String.append year
    (String.append "-" (int_to_string (option_map Z.succ (parseInt_string year)))).

(** The first piece of [monthYear.split('-')]. *)
Definition year_piece (monthYear : string) : string :=
  match split_dash monthYear with
  | y :: _ => y
  | [] => EmptyString
  end.

Definition six_hours : Z := 6 * 60 * 60 * 1000.

Section Service.

(** [Math.sin] on the integers the seed ranges over, and the constant
    [READ_ONLY_DB] read from the process environment. *)
Variable Math_sin : Z -> Q.
Variable READ_ONLY_DB : bool.

(** [districtCode.charCodeAt(2) + monthYear.charCodeAt(5) +
    monthYear.charCodeAt(6)]; NaN if one of them is. *)
Definition seed_of (districtCode monthYear : string) : option Z :=
  match charCodeAt districtCode 2, charCodeAt monthYear 5, charCodeAt monthYear 6 with
  | Some a, Some b, Some c => Some (a + b + c)
  | _, _, _ => None
  end.

Definition seededRandom (seed : option Z) (min max : Z) : number :=
  let x :=
    match seed with
    | Some s => JS.mul (Num (Math_sin s)) (of_Z 10000)
    | None => NaN
    end in
  JS.add (of_Z min)
    (JS.floor (JS.mul (JS.sub x (JS.floor x)) (of_Z (max - min + 1)))).

Definition generateMockData (now : Z) (districtCode monthYear : string) : Bundle :=
  let district := find_district districtCode in
  let seed := seed_of districtCode monthYear in
  let baseHouseholds := seededRandom seed 15000 45000 in
  let avgDaysPerHousehold := seededRandom seed 18 28 in
  let totalPersonDays := JS.floor (JS.mul baseHouseholds avgDaysPerHousehold) in
  let wageRate := seededRandom seed 200 250 in
  let totalAmount := JS.mul totalPersonDays wageRate in
  let totalAmountCrores := JS.div totalAmount (of_Z 10000000) in
  {|
    district_code := districtCode;
    district_name :=
      or_value (match district with
                | Some d => JString (name d)
                | None => JUndefined
                end) (JString "Unknown");
    month_year := monthYear;
    total_households := JNumber baseHouseholds;
    total_person_days := JNumber totalPersonDays;
    total_amount_spent := JNumber totalAmountCrores;
    avg_days_per_household :=
      JNumber (JS.div (JS.round (JS.mul avgDaysPerHousehold (of_Z 100))) (of_Z 100));
    avg_amount_per_household :=
      JNumber (JS.div (JS.round (JS.mul (JS.div totalAmountCrores baseHouseholds)
                                   (of_Z 100))) (of_Z 100));
    performance_score := JNumber (seededRandom seed 75 95);
    data_source := "mock_data";
    last_updated := toISOString now;
    financial_year := JString (finYear_of (year_piece monthYear));
    month := array_get (split_dash monthYear) 1;
    average_wage_rate := JNumber wageRate;
    women_persondays := JNumber (JS.floor (JS.mul totalPersonDays (Num (2 # 5))));
    sc_persondays := JNumber (JS.floor (JS.mul totalPersonDays (Num (3 # 20))));
    st_persondays := JNumber (JS.floor (JS.mul totalPersonDays (Num (2 # 25))));
    completed_works := JNumber (seededRandom seed 50 200);
    ongoing_works := JNumber (seededRandom seed 100 300);
    total_individuals_worked := JNumber (JS.floor (JS.mul baseHouseholds (Num (6 # 5))));
    total_job_cards := JNumber (JS.floor (JS.mul baseHouseholds (Num (11 # 10))));
    households_100_days := JNumber (JS.floor (JS.mul baseHouseholds (Num (3 # 20))));
    differently_abled_worked := JNumber (JS.floor (JS.mul baseHouseholds (Num (1 # 50))));
    payment_within_15_days := JNumber (seededRandom seed 75 95)
  |}.

(** [SELECT data FROM api_cache WHERE cache_key = ? AND expires_at >
    datetime("now")], then [JSON.parse] of the row found. SQLite reads
    the double-quoted ["now"], which names no column, as the string
    literal. *)
Definition getCachedData (env : Env) (cache : gmap string CacheRow)
  (key : string) : result (option Bundle) :=
  match db_get_error env with
  | Some err => Throw err
  | None =>
      match cache !! key with
      | Some row =>
          if text_gt (expires_at row) (sqlite_datetime (clock_select env))
          then Ok (Some (data row))
          else Ok None
      | None => Ok None
      end
  end.

(** [INSERT OR REPLACE INTO api_cache (cache_key, data, expires_at)];
    no-op in read-only mode. *)
Definition setCachedData (env : Env) (cache : gmap string CacheRow)
  (key : string) (b : Bundle) (ttl : Z) : result unit * gmap string CacheRow :=
  if READ_ONLY_DB then (Ok tt, cache)
  else
    let expiresAt := toISOString (clock_insert env + ttl) in
    match db_run_error env with
    | Some err => (Throw err, cache)
    | None => (Ok tt, <[ key := mkRow (JSON_roundtrip b) expiresAt ]> cache)
    end.

(** The two filters that [fetchRealAPIData] sends upstream. *)
Definition request_of (monthYear : string) : string * value :=
  (finYear_of (year_piece monthYear),
   monthName_of (array_get (split_dash monthYear) 1)).

Definition fetchRealAPIData (env : Env) (districtCode monthYear : string)
  : result Bundle :=
  let '(finYear, monthName) := request_of monthYear in
  match axios_get env finYear monthName with
  | NetworkError err => Throw err
  | Response (Some records) =>
      processAPIData (clock_data env) records districtCode monthYear
  | Response None => Throw "No data received from API"
  end.

Definition cache_key (districtCode monthYear : string) : string :=
  String.append "district_"
    (String.append districtCode (String.append "_" monthYear)).

Definition fetchDistrictData (env : Env) (cache : gmap string CacheRow)
  (districtCode monthYear : string) : Run Bundle :=
  let cacheKey := cache_key districtCode monthYear in
  match getCachedData env cache cacheKey with
  | Throw _ => mkRun (Throw "Failed to fetch district data") cache []
  | Ok (Some cachedData) => mkRun (Ok cachedData) cache []
  | Ok None =>
      (* Try to fetch real data from data.gov.in API *)
      let realData :=
        match fetchRealAPIData env districtCode monthYear with
        | Ok b => Some b
        | Throw _ => None
        end in
      (* Use real data if available, otherwise fall back to mock data *)
      let data :=
        match realData with
        | Some b => b
        | None => generateMockData (clock_data env) districtCode monthYear
        end in
      match setCachedData env cache cacheKey data six_hours with
      | (Ok _, cache') => mkRun (Ok data) cache' [request_of monthYear]
      | (Throw _, cache') =>
          mkRun (Throw "Failed to fetch district data") cache' [request_of monthYear]
      end
  end.

(** The entry pushed for a month whose fetch returned [data]. *)
Definition entry_of_data (monthYear : string) (d : Bundle) : History.entry := {|
  History.month_year := monthYear;
  History.total_households := total_households d;
  History.total_person_days := total_person_days d;
  History.total_amount_spent := total_amount_spent d;
  History.avg_days_per_household := avg_days_per_household d;
  History.avg_amount_per_household := avg_amount_per_household d;
  History.performance_score := performance_score d;
  History.data_source :=
    if String.eqb (data_source d) "" then "api" else data_source d
|}.

(** The entry pushed for a month whose fetch threw. *)
Definition entry_of_mock (monthYear : string) (mockData : Bundle) : History.entry := {|
  History.month_year := monthYear;
  History.total_households := total_households mockData;
  History.total_person_days := total_person_days mockData;
  History.total_amount_spent := total_amount_spent mockData;
  History.avg_days_per_household := avg_days_per_household mockData;
  History.avg_amount_per_household := avg_amount_per_household mockData;
  History.performance_score := performance_score mockData;
  History.data_source := "mock"
|}.

(** The body of the loop of [getDistrictHistory], for the values of [i]
    in [indices]: [envs i] is what the surroundings do during the fetch
    of iteration [i]; [history] is the array filled so far. *)
Fixpoint history_loop (envs : nat -> Env) (current : Z) (districtCode : string)
  (indices : list nat) (cache : gmap string CacheRow)
  (sent : list (string * value)) (history : list History.entry)
  : Run (list History.entry) :=
  match indices with
  | [] => mkRun (Ok history) cache sent
  | i :: rest =>
      let monthYear := format_YYYY_MM (current - Z.of_nat i) in
      let run := fetchDistrictData (envs i) cache districtCode monthYear in
      let pushed :=
        match outcome run with
        | Ok d => entry_of_data monthYear d
        | Throw _ =>
            entry_of_mock monthYear
              (generateMockData (clock_data (envs i)) districtCode monthYear)
        end in
      history_loop envs current districtCode rest (table run)
        (sent ++ requests run) (history ++ [pushed])
  end.

(** [getDistrictHistory(districtCode, months)]; [today] is the clock
    reading of [moment()], taken in UTC. *)
Definition getDistrictHistory (envs : nat -> Env) (today : Z)
  (cache : gmap string CacheRow) (districtCode : string) (months : Z)
  : Run (list History.entry) :=
  let run :=
    history_loop envs (month_index (utc_date today)) districtCode
      (seq 0 (Z.to_nat months)) cache [] [] in
  match outcome run with
  | Ok history => mkRun (Ok (rev history)) (table run) (requests run)
  | Throw _ => mkRun (Throw "Failed to fetch district history") (table run) (requests run)
  end.

End Service.

(** ** Comparison of districts *)

Module Comparison.

(** The objects pushed by [getDistrictComparison]. *)
Record row : Type := mk {
  district_code : string;
  district_name : value;
  total_households : value;
  total_person_days : value;
  total_amount_spent : value;
  avg_days_per_household : value;
  performance_score : value
}.

End Comparison.

(** The row pushed for a district whose fetch returned [d]. *)
Definition row_of_data (code : string) (d : Bundle) : Comparison.row := {|
  Comparison.district_code := code;
  Comparison.district_name := district_name d;
  Comparison.total_households := total_households d;
  Comparison.total_person_days := total_person_days d;
  Comparison.total_amount_spent := total_amount_spent d;
  Comparison.avg_days_per_household := avg_days_per_household d;
  Comparison.performance_score := performance_score d
|}.

Section ComparisonService.

Variable Math_sin : Z -> Q.
Variable READ_ONLY_DB : bool.

(** The loop of [getDistrictComparison] over the codes that remain;
    [i] counts the iterations done, [envs i] is what the surroundings do
    during the fetch of iteration [i]. A fetch that throws pushes
    nothing. *)
Fixpoint comparison_loop (envs : nat -> Env) (monthYear : string) (i : nat)
  (districtCodes : list string) (cache : gmap string CacheRow)
  (sent : list (string * value)) (comparison : list Comparison.row)
  : Run (list Comparison.row) :=
  match districtCodes with
  | [] => mkRun (Ok comparison) cache sent
  | code :: rest =>
      let run := fetchDistrictData Math_sin READ_ONLY_DB (envs i) cache code monthYear in
      let comparison :=
        match outcome run with
        | Ok d => (comparison ++ [row_of_data code d])%list
        | Throw _ => comparison
        end in
      comparison_loop envs monthYear (S i) rest (table run)
        (sent ++ requests run) comparison
  end.

(** [getDistrictComparison(districtCodes, monthYear)]. *)
Definition getDistrictComparison (envs : nat -> Env) (cache : gmap string CacheRow)
  (districtCodes : list string) (monthYear : string) : Run (list Comparison.row) :=
  let run := comparison_loop envs monthYear 0 districtCodes cache [] [] in
  match outcome run with
  | Ok comparison => run
  | Throw _ =>
      mkRun (Throw "Failed to fetch district comparison") (table run) (requests run)
  end.

(** The cache table found by iteration [i] of the comparison loop, the
    fetch of that iteration, and the rows pushed from iteration [i] on. *)
Fixpoint comparison_table (envs : nat -> Env) (monthYear : string)
  (cache : gmap string CacheRow) (districtCodes : list string) (i : nat)
  : gmap string CacheRow :=
  match i with
  | O => cache
  | S j =>
      match nth_error districtCodes j with
      | Some code =>
          table (fetchDistrictData Math_sin READ_ONLY_DB (envs j)
                   (comparison_table envs monthYear cache districtCodes j)
                   code monthYear)
      | None => comparison_table envs monthYear cache districtCodes j
      end
  end.

Definition comparison_fetch (envs : nat -> Env) (monthYear : string)
  (cache : gmap string CacheRow) (districtCodes : list string) (i : nat)
  (code : string) : Run Bundle :=
  fetchDistrictData Math_sin READ_ONLY_DB (envs i)
    (comparison_table envs monthYear cache districtCodes i) code monthYear.

End ComparisonService.

(** ** Location-based district detection *)

(** [s.trim()] as the conversion of a string to a number applies it. *)
Definition trim (s : string) : string :=
  String.rev (skip_whitespace (String.rev (skip_whitespace s))).

Definition digit_below (radix : Z) (c : ascii) : option Z :=
  match hex_digit_of c with
  | Some d => if d <? radix then Some d else None
  | None => None
  end.

(** A whole string of digits in the radix, as after [0x], [0o], [0b]. *)
Definition radix_literal (radix : Z) (s : string) : number :=
  match span_digits (digit_below radix) s with
  | ([], _) => NaN
  | (ds, EmptyString) => of_Z (digits_value radix ds)
  | (_, String _ _) => NaN
  end.

(** A whole string as a decimal literal: sign, digits, fraction,
    exponent. The literal [Infinity] is not in the model and reads as
    NaN. *)
Definition decimal_literal (s : string) : number :=
  let '(sign, body) := read_sign s in
  let '(ints, after_int) := span_digits digit_of body in
  let '(fracs, after_frac) :=
    match after_int with
    | String "."%char t => span_digits digit_of t
    | _ => ([], after_int)
    end in
  let mantissa :=
    Qmult (inject_Z sign)
      (Qdiv (inject_Z (digits_value 10 (ints ++ fracs)))
            (inject_Z (10 ^ Z.of_nat (length fracs)))) in
  match ints, fracs with
  | [], [] => NaN
  | _, _ =>
      match after_frac with
      | EmptyString => Num (Qred mantissa)
      | String c t =>
          if Ascii.eqb c "e"%char || Ascii.eqb c "E"%char then
            let '(esign, ebody) := read_sign t in
            match span_digits digit_of ebody with
            | ([], _) => NaN
            | (es, EmptyString) =>
                Num (Qred (Qmult mantissa
                             (Qpower (inject_Z 10) (esign * digits_value 10 es))))
            | (_, String _ _) => NaN
            end
          else NaN
      end
  end.

(** The number that a string converts to in arithmetic. *)
Definition string_to_number (s : string) : number :=
  match trim s with
  | EmptyString => of_Z 0
  | String "0"%char (String "x"%char t) => radix_literal 16 t
  | String "0"%char (String "X"%char t) => radix_literal 16 t
  | String "0"%char (String "o"%char t) => radix_literal 8 t
  | String "0"%char (String "O"%char t) => radix_literal 8 t
  | String "0"%char (String "b"%char t) => radix_literal 2 t
  | String "0"%char (String "B"%char t) => radix_literal 2 t
  | body => decimal_literal body
  end.

(** The number that a value converts to in arithmetic. *)
Definition to_number (v : value) : number :=
  match v with
  | JUndefined => NaN
  | JNull => of_Z 0
  | JBool b => if b then of_Z 1 else of_Z 0
  | JNumber n => n
  | JString s => string_to_number s
  end.

(** The object answered by the detection route. *)
Record Detected : Type := mkDetected {
  detected_id : number;
  detected_code : string;
  detected_name : string;
  detected_state : string;
  detected_latitude : Q;
  detected_longitude : Q
}.

(** The answers of a route: the JSON body, or a status with an error. *)
Inductive reply (A : Type) : Type :=
| Json (body : A)
| Status (status : Z) (error : string).

Arguments Json {A} body.
Arguments Status {A} status error.

Section Detection.

(** [Math.sqrt] on the non-negative numbers, and the successive values
    of [Math.random()] during the call. *)
Variable Math_sqrt : Q -> Q.
Variable Math_random : nat -> Q.

Definition sqrt_number (n : number) : number :=
  match n with
  | Num q => if Qle_bool 0 q then Num (Math_sqrt q) else NaN
  | NaN => NaN
  end.

(** [Math.sqrt(Math.pow(district.lat - latitude, 2) +
    Math.pow(district.lng - longitude, 2))]. *)
Definition distance_to (latitude longitude : value) (district : District) : number :=
  let dlat := JS.sub (Num (lat district)) (to_number latitude) in
  let dlng := JS.sub (Num (lng district)) (to_number longitude) in
  sqrt_number (JS.add (JS.mul dlat dlat) (JS.mul dlng dlng)).

(** [distance < minDistance], where [None] is the initial [Infinity]. *)
Definition closer (distance : number) (minDistance : option number) : bool :=
  match minDistance with
  | None => match distance with Num _ => true | NaN => false end
  | Some m => JS.gt m distance
  end.

(** The state of the [forEach]: the nearest district so far, the least
    distance so far, and the number of random draws made. *)
Definition scan_state : Type := option Detected * option number * nat.

Definition scan_step (latitude longitude : value) (st : scan_state)
  (district : District) : scan_state :=
  let '(nearestDistrict, minDistance, draws) := st in
  let distance := distance_to latitude longitude district in
  if closer distance minDistance
  then (Some {|
          detected_id := JS.floor (JS.mul (Num (Math_random draws)) (of_Z 1000));
          detected_code := code district;
          detected_name := name district;
          detected_state := "Andhra Pradesh";
          detected_latitude := lat district;
          detected_longitude := lng district
        |}, Some distance, S draws)
  else st.

Definition scan_districts (latitude longitude : value) (districts : list District)
  : scan_state :=
  fold_left (scan_step latitude longitude) districts (None, None, O).

(** The handler of [POST /api/detect-district]; the two arguments are
    the properties [latitude] and [longitude] of the request body. *)
Definition detect_district (latitude longitude : value) : reply (option Detected) :=
  if negb (truthy latitude) || negb (truthy longitude)
  then Status 400 "Latitude and longitude required"
  else Json (fst (fst (scan_districts latitude longitude andhraPradeshDistricts))).

End Detection.

(** ** The score on the home page *)

(** [getPerformanceColor(score)] of the client. *)
Definition ge_number (a b : number) : bool :=
  match a, b with
  | Num x, Num y => Qle_bool y x
  | _, _ => false
  end.

Definition getPerformanceColor (score : number) : string :=
  if ge_number score (of_Z 80) then "#10B981"
  else if ge_number score (of_Z 60) then "#F59E0B"
  else "#EF4444".

(** ** Definitions used to state the properties *)

(** A rational approximation of the sine (argument reduced with 355/113,
    then the Taylor polynomial of degree 13). It is used to run the model
    on examples; every theorem holds for any [Math_sin]. *)
Definition sin_approx (z : Z) : Q :=
  let two_pi : Q := 710 # 113 in
  let x := inject_Z z in
  let k := Qfloor (Qplus (Qdiv x two_pi) (1 # 2)) in
  let r := Qred (Qminus x (Qmult (inject_Z k) two_pi)) in
  let r2 := Qred (Qmult r r) in
  let term (prev : Q) (n : Z) : Q :=
    Qred (Qdiv (Qmult (Qopp prev) r2) (inject_Z ((2 * n) * (2 * n + 1)))) in
  let t1 := r in
  let t3 := term t1 1 in
  let t5 := term t3 2 in
  let t7 := term t5 3 in
  let t9 := term t7 4 in
  let t11 := term t9 5 in
  let t13 := term t11 6 in
  Qred (Qplus t1 (Qplus t3 (Qplus t5 (Qplus t7 (Qplus t9 (Qplus t11 t13)))))).

(** The alias table of the name matcher, keyed by entity code. *)
Definition alias_table (entity_code : string) : list string :=
  if String.eqb entity_code "AP013" then ["y.s.r"; "ysr"; "kadapa"; "y s r"]
  else if String.eqb entity_code "AP004" then ["ntr"; "guntur"]
  else if String.eqb entity_code "AP012" then ["west godavari"; "westgodavari"]
  else if String.eqb entity_code "AP003" then ["east godavari"; "eastgodavari"]
  else [].

(** The candidate forms of the specification: for the canonical name of
    the entity, exact lowercase, white space removed, white space
    replaced with a dot; then the aliases of its code. An unknown code
    has no candidate. *)
Definition spec_candidates (entity_code : string) : list string :=
  match find_district entity_code with
  | Some entity =>
      let canonical := toLowerCase (name entity) in
      [canonical; replace_whitespace "" canonical; replace_whitespace "." canonical]
      ++ alias_table entity_code
  | None => []
  end.

(** The specification's matcher: the lowercased label contains some
    candidate as a substring. *)
Definition spec_match (entity_code label : string) : Prop :=
  exists candidate,
    In candidate (spec_candidates entity_code) /\
    includes (toLowerCase label) candidate = true.

(** A row that carries only a label. *)
Definition labelled_row (label : string) : gmap string json :=
  {[ "district_name" := JsStr label ]}.

(** The numeric fields of a bundle. *)
Definition numeric_fields (b : Bundle) : list value :=
  [ total_households b; total_person_days b; total_amount_spent b;
    avg_days_per_household b; avg_amount_per_household b; performance_score b;
    average_wage_rate b; women_persondays b; sc_persondays b; st_persondays b;
    completed_works b; ongoing_works b; total_individuals_worked b;
    total_job_cards b; households_100_days b; differently_abled_worked b;
    payment_within_15_days b ].

(** A bundle with its time stamp replaced. *)
Definition with_last_updated (stamp : string) (b : Bundle) : Bundle := {|
  district_code := district_code b;
  district_name := district_name b;
  month_year := month_year b;
  total_households := total_households b;
  total_person_days := total_person_days b;
  total_amount_spent := total_amount_spent b;
  avg_days_per_household := avg_days_per_household b;
  avg_amount_per_household := avg_amount_per_household b;
  performance_score := performance_score b;
  data_source := data_source b;
  last_updated := stamp;
  financial_year := financial_year b;
  month := month b;
  average_wage_rate := average_wage_rate b;
  women_persondays := women_persondays b;
  sc_persondays := sc_persondays b;
  st_persondays := st_persondays b;
  completed_works := completed_works b;
  ongoing_works := ongoing_works b;
  total_individuals_worked := total_individuals_worked b;
  total_job_cards := total_job_cards b;
  households_100_days := households_100_days b;
  differently_abled_worked := differently_abled_worked b;
  payment_within_15_days := payment_within_15_days b
|}.

(** A value that is an integer between [lo] and [hi]. *)
Definition integer_between (lo hi : Z) (v : value) : Prop :=
  exists s : Z, v = JNumber (of_Z s) /\ lo <= s <= hi.

(** The last instant of year 9999. *)
Definition last_instant : Z := 253402300799999.

(** The key YYYYMMDD of a date, and the dates of the calendar. *)
Definition date_key (d : date) : Z := dyear d * 10000 + dmonth d * 100 + dday d.

Definition valid_date (d : date) : Prop :=
  1970 <= dyear d /\ 1 <= dmonth d <= 12 /\ 1 <= dday d <= 31.

(** The surroundings of a call in which nothing fails and the upstream
    answers [resp] to every request. *)
Definition calm_env (t : Z) (resp : response) : Env := {|
  db_get_error := None;
  db_run_error := None;
  clock_select := t;
  clock_data := t;
  clock_insert := t;
  axios_get := fun _ _ => resp
|}.

Section HistoryStates.

Variable Math_sin : Z -> Q.
Variable READ_ONLY_DB : bool.
Variable envs : nat -> Env.
Variable current : Z.
Variable cache : gmap string CacheRow.
Variable districtCode : string.

(** The period fetched by iteration [i] of the history loop, the cache
    table that iteration finds, and what its fetch does. *)
Definition period_at (i : nat) : string := format_YYYY_MM (current - Z.of_nat i).

Fixpoint table_before (i : nat) : gmap string CacheRow :=
  match i with
  | O => cache
  | S j =>
      table (fetchDistrictData Math_sin READ_ONLY_DB (envs j) (table_before j)
               districtCode (period_at j))
  end.

Definition fetch_at (i : nat) : Run Bundle :=
  fetchDistrictData Math_sin READ_ONLY_DB (envs i) (table_before i)
    districtCode (period_at i).

(** The entry that the loop pushes at iteration [i]. *)
Definition entry_at (i : nat) : History.entry :=
  match outcome (fetch_at i) with
  | Ok d => entry_of_data (period_at i) d
  | Throw _ =>
      entry_of_mock (period_at i)
        (generateMockData Math_sin (clock_data (envs i)) districtCode (period_at i))
  end.

End HistoryStates.

(** The inputs of the scorer used as examples: only the first two fields
    matter to it. *)
Definition metrics_of (households person_days : Z) : Metrics.data :=
  Metrics.mk (of_Z households) (of_Z person_days) (of_Z 0) (of_Z 0) (of_Z 0)
    (of_Z 0) (of_Z 0) (of_Z 0) (of_Z 0) (of_Z 0).

(** Surroundings in which SQLite reports an error to [db.get], and
    surroundings in which it reports one to [db.run]; the upstream is
    unreachable in both. *)
Definition env_read_fails : Env := {|
  db_get_error := Some "SQLITE_BUSY: database is locked";
  db_run_error := None;
  clock_select := 1710493200000;
  clock_data := 1710493200000;
  clock_insert := 1710493200000;
  axios_get := fun _ _ => NetworkError "connect ETIMEDOUT"
|}.

Definition env_write_fails : Env := {|
  db_get_error := None;
  db_run_error := Some "SQLITE_FULL: database or disk is full";
  clock_select := 1710493200000;
  clock_data := 1710493200000;
  clock_insert := 1710493200000;
  axios_get := fun _ _ => NetworkError "connect ETIMEDOUT"
|}.

(** What a cache miss computes: the upstream bundle, or the generated one
    when the upstream fetch throws. *)
Definition fresh_data (Math_sin : Z -> Q) (env : Env)
  (districtCode monthYear : string) : Bundle :=
  match fetchRealAPIData env districtCode monthYear with
  | Ok b => b
  | Throw _ => generateMockData Math_sin (clock_data env) districtCode monthYear
  end.

(** Lexicographic combination of comparisons. *)
Definition lex (c rest : comparison) : comparison :=
  match c with
  | Eq => rest
  | _ => c
  end.

(** Every row of the cache table is stored under the key of the district
    and period of its bundle. *)
Definition keyed (cache : gmap string CacheRow) : Prop :=
  forall key row,
    cache !! key = Some row ->
    key = cache_key (district_code (data row)) (month_year (data row)).

(** A string without underscore. *)
Fixpoint no_underscore (s : string) : bool :=
  match s with
  | EmptyString => true
  | String c t => negb (Ascii.eqb c "_"%char) && no_underscore t
  end.

(** The day number (since the epoch) of an instant. *)
Definition day_of (t : Z) : Z := t / ms_per_day.

(** The squared distance behind [distance_to], for numeric coordinates. *)
Definition squared_distance (latitude longitude : Q) (district : District) : Q :=
  Qplus (Qmult (Qminus (lat district) latitude) (Qminus (lat district) latitude))
        (Qmult (Qminus (lng district) longitude) (Qminus (lng district) longitude)).

(** Stand-ins for [Math.sqrt] and [Math.random] on examples: the identity
    (which is increasing, as the square root is) and a constant. *)
Definition sqrt_stand_in (q : Q) : Q := q.
Definition random_stand_in (k : nat) : Q := 1 # 2.

(** What the comparison loop pushes after a fetch for [code]. *)
Definition pushed_row (run : Run Bundle) (code : string) : list Comparison.row :=
  match outcome run with
  | Ok d => [row_of_data code d]
  | Throw _ => []
  end.

(** The fractional part [x - Math.floor(x)] of [x = Math.sin(seed) *
    10000] that every draw of one call scales to its range. *)
Definition seed_fraction (Math_sin : Z -> Q) (seed : Z) : Q :=
  let x := Qred (Qmult (Math_sin seed) (inject_Z 10000)) in
  Qred (Qminus x (inject_Z (Qfloor x))).

(** The fields of a generated bundle that are draws, with their ranges. *)
Definition drawn_fields (b : Bundle) : list (value * (Z * Z)) :=
  [ (total_households b, (15000, 45000));
    (average_wage_rate b, (200, 250));
    (performance_score b, (75, 95));
    (completed_works b, (50, 200));
    (ongoing_works b, (100, 300));
    (payment_within_15_days b, (75, 95)) ].

(** * Properties *)

(** ** The built-ins on examples *)

Example parse_examples :
  parseInt (JString " 42px") = Some 42 /\
  parseInt (JString "0x1F") = Some 31 /\
  parseInt (JString "abc") = None /\
  parseInt (JNumber (Num (-7 # 2))) = Some (-3) /\
  parseFloat (JString "12.5") = Num (25 # 2) /\
  parseFloat (JString "-1.5e2xyz") = Num (-150 # 1) /\
  parseFloat (JString ".") = NaN /\
  split_dash "2024-03" = ["2024"; "03"] /\
  replace_whitespace "." "ysr  kadapa" = "ysr.kadapa" /\
  toLowerCase "Y.S.R. Kadapa" = "y.s.r. kadapa" /\
  includes "unknown district" "str" = true /\
  charCodeAt "AP004" 2 = Some 48 /\
  charCodeAt "A" 2 = None.
Proof. repeat split; vm_compute; reflexivity. Qed.

Example rendering_examples :
  toISOString 1710493200000 = "2024-03-15T09:00:00.000Z" /\
  sqlite_datetime 1710504000000 = "2024-03-15 12:00:00" /\
  toISOString 951782399999 = "2000-02-28T23:59:59.999Z" /\
  toISOString 951782400000 = "2000-02-29T00:00:00.000Z" /\
  toISOString 0 = "1970-01-01T00:00:00.000Z" /\
  format_YYYY_MM (month_index (utc_date 1710493200000) - 3) = "2023-12".
Proof. repeat split; vm_compute; reflexivity. Qed.

Example ntr_row_scored :
  match processAPIData 0 [ntr_row] "AP004" "2024-03" with
  | Ok b => (total_amount_spent b, performance_score b, data_source b,
             avg_amount_per_household b, district_name b)
  | Throw _ => (JNull, JNull, "", JNull, JNull)
  end
  = (JNumber (Num (25 # 2)), JNumber (of_Z 85), "data.gov.in",
     JNumber (of_Z 0), JString "Guntur").
Proof. vm_compute. reflexivity. Qed.

(** ** The synthetic generator *)

Section Generator.

Variable Math_sin : Z -> Q.

(** The generator reads the clock only for [last_updated]. *)
Lemma generateMockData_clock now1 now2 districtCode monthYear :
  generateMockData Math_sin now1 districtCode monthYear =
  with_last_updated (toISOString now1)
    (generateMockData Math_sin now2 districtCode monthYear).
Proof. reflexivity. Qed.

(** The numeric fields are functions of the seed alone. *)
Lemma numeric_fields_seed now1 now2 code1 code2 period1 period2 :
  seed_of code1 period1 = seed_of code2 period2 ->
  numeric_fields (generateMockData Math_sin now1 code1 period1) =
  numeric_fields (generateMockData Math_sin now2 code2 period2).
Proof.
  intros Hseed. unfold numeric_fields, generateMockData. cbn [
    total_households total_person_days total_amount_spent
    avg_days_per_household avg_amount_per_household performance_score
    average_wage_rate women_persondays sc_persondays st_persondays
    completed_works ongoing_works total_individuals_worked total_job_cards
    households_100_days differently_abled_worked payment_within_15_days].
  rewrite Hseed. reflexivity.
Qed.

End Generator.

(** C2, as amended: two calls of [generateMockData] with the same district
    code and period return bundles that agree on every field except
    [last_updated], which is the ISO rendering of the clock at each call. *)
Theorem generateMockData_deterministic_up_to_stamp :
  forall (Math_sin : Z -> Q) (now1 now2 : Z) (districtCode monthYear : string),
    let b1 := generateMockData Math_sin now1 districtCode monthYear in
    let b2 := generateMockData Math_sin now2 districtCode monthYear in
    with_last_updated EmptyString b1 = with_last_updated EmptyString b2 /\
    last_updated b1 = toISOString now1 /\
    last_updated b2 = toISOString now2.
Proof. intros. repeat split. Qed.

(** C2, as stated, fails: two calls one second apart, for the same
    district and period, differ in [last_updated]. *)
Lemma generateMockData_stamp_differs :
  last_updated (generateMockData sin_approx 1710493200000 "AP001" "2024-03")
    = "2024-03-15T09:00:00.000Z" /\
  last_updated (generateMockData sin_approx 1710493201000 "AP001" "2024-03")
    = "2024-03-15T09:00:01.000Z" /\
  generateMockData sin_approx 1710493200000 "AP001" "2024-03" <>
  generateMockData sin_approx 1710493201000 "AP001" "2024-03".
Proof.
  assert (H1 : last_updated (generateMockData sin_approx 1710493200000 "AP001" "2024-03")
               = "2024-03-15T09:00:00.000Z") by (vm_compute; reflexivity).
  assert (H2 : last_updated (generateMockData sin_approx 1710493201000 "AP001" "2024-03")
               = "2024-03-15T09:00:01.000Z") by (vm_compute; reflexivity).
  split; [exact H1 | split; [exact H2 |]].
  intros Heq. rewrite Heq in H1. rewrite H1 in H2. discriminate H2.
Qed.

(** C9: in every bundle of the generator, [payment_within_15_days] equals
    [performance_score]: both are the draw [seededRandom(75, 95)] from the
    one seed of the call, and a draw depends on the seed and the range
    only. *)
Theorem generateMockData_payment_equals_score :
  forall (Math_sin : Z -> Q) (now : Z) (districtCode monthYear : string),
    let b := generateMockData Math_sin now districtCode monthYear in
    payment_within_15_days b = performance_score b /\
    performance_score b =
      JNumber (seededRandom Math_sin (seed_of districtCode monthYear) 75 95).
Proof. intros. split; reflexivity. Qed.

(** C10: the numeric fields of the generator do not depend on the year:
    for a district code and two periods whose characters at positions 5
    and 6 agree, all numeric fields are equal (whatever the clock). *)
Theorem generateMockData_ignores_year :
  forall (Math_sin : Z -> Q) (now1 now2 : Z) (districtCode period1 period2 : string),
    charCodeAt period1 5 = charCodeAt period2 5 ->
    charCodeAt period1 6 = charCodeAt period2 6 ->
    numeric_fields (generateMockData Math_sin now1 districtCode period1) =
    numeric_fields (generateMockData Math_sin now2 districtCode period2).
Proof.
  intros Math_sin now1 now2 districtCode period1 period2 H5 H6.
  apply numeric_fields_seed. unfold seed_of. rewrite H5, H6. reflexivity.
Qed.

Lemma generateMockData_ignores_year_witness :
  charCodeAt "2023-03" 5 = charCodeAt "2024-03" 5 /\
  charCodeAt "2023-03" 6 = charCodeAt "2024-03" 6 /\
  numeric_fields (generateMockData sin_approx 0 "AP004" "2023-03") =
  numeric_fields (generateMockData sin_approx 86400000 "AP004" "2024-03").
Proof.
  split; [reflexivity | split; [reflexivity |]].
  apply (generateMockData_ignores_year sin_approx 0 86400000 "AP004" "2023-03" "2024-03");
    reflexivity.
Defined.

(** ** The performance score *)

Lemma gt_Num x y : JS.gt (Num x) (Num y) = true <-> (y < x)%Q.
Proof.
  unfold JS.gt. rewrite negb_true_iff, <- not_true_iff_false, Qle_bool_iff.
  split; [apply Qnot_le_lt | apply Qlt_not_le].
Qed.

Lemma gt_Num_false x y : JS.gt (Num x) (Num y) = false <-> (x <= y)%Q.
Proof.
  unfold JS.gt. rewrite negb_false_iff. apply Qle_bool_iff.
Qed.

(** Case analysis on every comparison of the goal, each turned into an
    inequality between rationals. *)
Ltac split_comparisons :=
  repeat match goal with
    | |- context [JS.gt (Num ?a) (Num ?b)] =>
        let H := fresh "Hcmp" in
        destruct (JS.gt (Num a) (Num b)) eqn:H;
        [apply gt_Num in H | apply gt_Num_false in H]
    end.

Lemma household_points_range households :
  0 <= household_points households <= 20.
Proof.
  unfold household_points.
  repeat match goal with |- context [JS.gt ?a ?b] => destruct (JS.gt a b) end; lia.
Qed.

Lemma efficiency_points_range avg : 0 <= efficiency_points avg <= 20.
Proof.
  unfold efficiency_points.
  repeat match goal with |- context [JS.gt ?a ?b] => destruct (JS.gt a b) end; lia.
Qed.

Lemma household_points_mono x y :
  (x <= y)%Q -> household_points (Num x) <= household_points (Num y).
Proof.
  intros Hxy. unfold household_points, of_Z, inject_Z.
  split_comparisons; try lia; exfalso; lra.
Qed.

Lemma efficiency_points_mono x y :
  (x <= y)%Q -> efficiency_points (Num x) <= efficiency_points (Num y).
Proof.
  intros Hxy. unfold efficiency_points, of_Z, inject_Z.
  split_comparisons; try lia; exfalso; lra.
Qed.

Lemma calculatePerformanceScore_sum d :
  calculatePerformanceScore d =
  60 + household_points (Metrics.total_households d) + efficiency_points (avgDays d).
Proof.
  unfold calculatePerformanceScore.
  pose proof (household_points_range (Metrics.total_households d)).
  pose proof (efficiency_points_range (avgDays d)). lia.
Qed.

Lemma calculatePerformanceScore_range d :
  60 <= calculatePerformanceScore d <= 100.
Proof.
  rewrite calculatePerformanceScore_sum.
  pose proof (household_points_range (Metrics.total_households d)).
  pose proof (efficiency_points_range (avgDays d)). lia.
Qed.

(** [avgDays] when the households are a positive number, and when they
    are not. *)
Lemma avgDays_positive d h p :
  Metrics.total_households d = Num h -> Metrics.total_person_days d = Num p ->
  (0 < h)%Q -> avgDays d = Num (Qred (p / h)).
Proof.
  intros Hh Hp Hpos. unfold avgDays, JS.div. rewrite Hh, Hp.
  replace (JS.gt (Num h) (of_Z 0)) with true
    by (symmetry; apply gt_Num; exact Hpos).
  destruct (Qeq_bool h 0) eqn:Hz; [| reflexivity].
  apply Qeq_bool_eq in Hz. rewrite Hz in Hpos. discriminate Hpos.
Qed.

Lemma avgDays_nonpositive d h :
  Metrics.total_households d = Num h -> (h <= 0)%Q -> avgDays d = of_Z 0.
Proof.
  intros Hh Hle. unfold avgDays. rewrite Hh.
  replace (JS.gt (Num h) (of_Z 0)) with false
    by (symmetry; apply gt_Num_false; exact Hle).
  reflexivity.
Qed.

Lemma score_nonpositive_households d h :
  Metrics.total_households d = Num h -> (h <= 0)%Q ->
  calculatePerformanceScore d = 60.
Proof.
  intros Hh Hle. rewrite calculatePerformanceScore_sum, (avgDays_nonpositive d h Hh Hle), Hh.
  assert (Hp : household_points (Num h) <= household_points (Num 0))
    by (apply household_points_mono; exact Hle).
  pose proof (household_points_range (Num h)).
  change (household_points (Num 0)) with 0 in Hp.
  change (efficiency_points (of_Z 0)) with 0. lia.
Qed.

(** ** Draws of the generator *)

Lemma add_of_Z a b : JS.add (of_Z a) (of_Z b) = of_Z (a + b).
Proof.
  unfold JS.add, lift2, of_Z. f_equal.
  rewrite <- (inject_Z_Qred (a + b)). apply Qred_complete.
  rewrite inject_Z_plus. reflexivity.
Qed.

Section Draws.

Variable Math_sin : Z -> Q.

(** A draw from a numeric seed is an integer of the range. *)
Lemma seededRandom_range s lo hi :
  lo <= hi ->
  exists k, seededRandom Math_sin (Some s) lo hi = of_Z k /\ lo <= k <= hi.
Proof.
  intros Hrange. unfold seededRandom.
  set (X := Qred (Math_sin s * inject_Z 10000)).
  change (JS.mul (Num (Math_sin s)) (of_Z 10000)) with (Num X).
  cbn [JS.floor JS.sub JS.mul lift2 of_Z].
  set (R := Qred (X - inject_Z (Qfloor X))).
  set (M := Qred (R * inject_Z (hi - lo + 1))).
  exists (lo + Qfloor M). split; [apply add_of_Z |].
  assert (HR : (0 <= R < 1)%Q).
  { unfold R. pose proof (Qfloor_le X) as Hlo. pose proof (Qlt_floor X) as Hhi.
    rewrite inject_Z_plus in Hhi. change (inject_Z 1) with 1%Q in Hhi.
    rewrite (Qred_correct (X - inject_Z (Qfloor X))). split; lra. }
  assert (Hn : (1 <= inject_Z (hi - lo + 1))%Q).
  { change 1%Q with (inject_Z 1). rewrite <- Zle_Qle. lia. }
  assert (HM : (0 <= M)%Q /\ (M < inject_Z (hi - lo + 1))%Q).
  { unfold M. rewrite (Qred_correct (R * inject_Z (hi - lo + 1))).
    destruct HR as [HR0 HR1]. split; nra. }
  destruct HM as [HM0 HM1].
  assert (H0 : 0 <= Qfloor M).
  { rewrite <- (Qfloor_Z 0). apply Qfloor_resp_le. exact HM0. }
  assert (H1 : Qfloor M < hi - lo + 1).
  { rewrite Zlt_Qlt. eapply Qle_lt_trans; [apply Qfloor_le | exact HM1]. }
  lia.
Qed.

(** The households of a bundle generated from a numeric seed are between
    15000 and 45000: the generator never divides by zero. *)
Lemma generateMockData_households_positive now districtCode monthYear :
  seed_of districtCode monthYear <> None ->
  integer_between 15000 45000
    (total_households (generateMockData Math_sin now districtCode monthYear)).
Proof.
  intros Hseed. unfold generateMockData; cbn [total_households].
  destruct (seed_of districtCode monthYear) as [s |]; [| congruence].
  destruct (seededRandom_range s 15000 45000) as (k & Hk & Hbound); [lia |].
  exists k. rewrite Hk. split; [reflexivity | exact Hbound].
Qed.

End Draws.

(** A string long enough has a character code at each position. *)
Lemma charCodeAt_defined s i :
  (i < String.length s)%nat -> exists c, charCodeAt s i = Some c.
Proof.
  revert i. induction s as [| a s IH]; intros i Hi; cbn in Hi; [lia |].
  destruct i as [| i]; unfold charCodeAt; cbn.
  - eexists; reflexivity.
  - destruct (IH i) as [c Hc]; [lia |]. unfold charCodeAt in Hc.
    destruct (String.get i s); [eexists; reflexivity | discriminate].
Qed.

Lemma seed_of_defined districtCode monthYear :
  (3 <= String.length districtCode)%nat -> (7 <= String.length monthYear)%nat ->
  exists s, seed_of districtCode monthYear = Some s.
Proof.
  intros Hc Hm. unfold seed_of.
  destruct (charCodeAt_defined districtCode 2) as [a ->]; [lia |].
  destruct (charCodeAt_defined monthYear 5) as [b ->]; [lia |].
  destruct (charCodeAt_defined monthYear 6) as [c ->]; [lia |].
  eexists; reflexivity.
Qed.

Lemma processAPIData_score now records districtCode monthYear b :
  processAPIData now records districtCode monthYear = Ok b ->
  exists d, performance_score b = JNumber (of_Z (calculatePerformanceScore d)).
Proof.
  unfold processAPIData, bind.
  destruct (filter_result (matches_district districtCode) records) as [[| r rest] |];
    try discriminate.
  intros Hb. injection Hb as <-. eexists. reflexivity.
Qed.

(** C6: the score is between 0 and 100, for every input of the scorer, in
    every bundle built from upstream rows and in every generated bundle
    (district code of at least three characters, period of at least
    seven, as YYYY-MM has); the scorer is non-decreasing in the households
    when person days per household are held fixed, and non-decreasing in
    person days per household when the households are held fixed. *)
Theorem performance_score_bounded_and_monotone :
  (forall d : Metrics.data, 0 <= calculatePerformanceScore d <= 100) /\
  (forall now records districtCode monthYear b,
      processAPIData now records districtCode monthYear = Ok b ->
      integer_between 0 100 (performance_score b)) /\
  (forall (Math_sin : Z -> Q) now districtCode monthYear,
      (3 <= String.length districtCode)%nat ->
      (7 <= String.length monthYear)%nat ->
      integer_between 0 100
        (performance_score (generateMockData Math_sin now districtCode monthYear))) /\
  (forall (d1 d2 : Metrics.data) (h1 p1 h2 p2 : Q),
      Metrics.total_households d1 = Num h1 -> Metrics.total_person_days d1 = Num p1 ->
      Metrics.total_households d2 = Num h2 -> Metrics.total_person_days d2 = Num p2 ->
      (h1 <= h2)%Q -> (p1 / h1 == p2 / h2)%Q ->
      calculatePerformanceScore d1 <= calculatePerformanceScore d2) /\
  (forall (d1 d2 : Metrics.data) (h p1 p2 : Q),
      Metrics.total_households d1 = Num h -> Metrics.total_person_days d1 = Num p1 ->
      Metrics.total_households d2 = Num h -> Metrics.total_person_days d2 = Num p2 ->
      (p1 / h <= p2 / h)%Q ->
      calculatePerformanceScore d1 <= calculatePerformanceScore d2).
Proof.
  split; [| split; [| split; [| split]]].
  - intros d. pose proof (calculatePerformanceScore_range d). lia.
  - intros now records districtCode monthYear b Hb.
    destruct (processAPIData_score _ _ _ _ _ Hb) as [d Hd].
    exists (calculatePerformanceScore d). split; [exact Hd |].
    pose proof (calculatePerformanceScore_range d). lia.
  - intros Math_sin now districtCode monthYear Hc Hm.
    destruct (seed_of_defined districtCode monthYear Hc Hm) as [s Hs].
    unfold generateMockData; cbn [performance_score]. rewrite Hs.
    destruct (seededRandom_range Math_sin s 75 95) as (k & Hk & Hbound); [lia |].
    exists k. rewrite Hk. split; [reflexivity | lia].
  - intros d1 d2 h1 p1 h2 p2 Hh1 Hp1 Hh2 Hp2 Hle Hratio.
    destruct (Qlt_le_dec 0 h1) as [Hpos | Hneg].
    + assert (Hpos2 : (0 < h2)%Q) by lra.
      rewrite !calculatePerformanceScore_sum.
      rewrite (avgDays_positive d1 h1 p1 Hh1 Hp1 Hpos).
      rewrite (avgDays_positive d2 h2 p2 Hh2 Hp2 Hpos2).
      rewrite Hh1, Hh2.
      pose proof (household_points_mono h1 h2 Hle).
      assert (efficiency_points (Num (Qred (p1 / h1)))
              <= efficiency_points (Num (Qred (p2 / h2)))).
      { apply efficiency_points_mono. apply Qred_le. rewrite Hratio. apply Qle_refl. }
      lia.
    + rewrite (score_nonpositive_households d1 h1 Hh1 Hneg).
      pose proof (calculatePerformanceScore_range d2). lia.
  - intros d1 d2 h p1 p2 Hh1 Hp1 Hh2 Hp2 Hratio.
    destruct (Qlt_le_dec 0 h) as [Hpos | Hneg].
    + rewrite !calculatePerformanceScore_sum.
      rewrite (avgDays_positive d1 h p1 Hh1 Hp1 Hpos).
      rewrite (avgDays_positive d2 h p2 Hh2 Hp2 Hpos).
      rewrite Hh1, Hh2.
      assert (efficiency_points (Num (Qred (p1 / h)))
              <= efficiency_points (Num (Qred (p2 / h)))).
      { apply efficiency_points_mono. apply Qred_le. exact Hratio. }
      lia.
    + rewrite (score_nonpositive_households d1 h Hh1 Hneg).
      rewrite (score_nonpositive_households d2 h Hh2 Hneg). lia.
Qed.

Lemma performance_score_bounded_and_monotone_witness :
  integer_between 0 100
    (performance_score (generateMockData sin_approx 0 "AP004" "2024-03")) /\
  (exists b, processAPIData 0 [ntr_row] "AP004" "2024-03" = Ok b /\
             integer_between 0 100 (performance_score b)) /\
  calculatePerformanceScore (metrics_of 10000 225000)
    <= calculatePerformanceScore (metrics_of 20002 450045) /\
  calculatePerformanceScore (metrics_of 20000 300000)
    <= calculatePerformanceScore (metrics_of 20000 450000).
Proof.
  destruct performance_score_bounded_and_monotone
    as (_ & Hreal & Hmock & Hhouseholds & Hratio).
  split; [| split; [| split]].
  - apply Hmock; cbn; lia.
  - destruct (processAPIData 0 [ntr_row] "AP004" "2024-03") as [b |] eqn:Hb;
      [| vm_compute in Hb; discriminate Hb].
    exists b. split; [reflexivity |].
    apply (Hreal 0 [ntr_row] "AP004" "2024-03"). exact Hb.
  - apply (Hhouseholds _ _ (inject_Z 10000) (inject_Z 225000)
             (inject_Z 20002) (inject_Z 450045)); try reflexivity.
    vm_compute; discriminate.
  - apply (Hratio _ _ (inject_Z 20000) (inject_Z 300000) (inject_Z 450000));
      try reflexivity.
    vm_compute; discriminate.
Defined.

(** ** The name matcher *)

Lemma find_district_some districtCode d :
  find_district districtCode = Some d ->
  In d andhraPradeshDistricts /\ code d = districtCode.
Proof.
  intros Hfind. apply find_some in Hfind as [Hin Heq].
  split; [exact Hin | apply String.eqb_eq; exact Heq].
Qed.

(** Runs through the thirteen districts of the registry. *)
Ltac each_district Hin :=
  unfold andhraPradeshDistricts in Hin; cbn [In] in Hin;
  repeat (destruct Hin as [<- | Hin]); [.. | contradiction].

(** The names tried by the source are the candidates of the
    specification. *)
Lemma possibleNames_spec districtCode d :
  find_district districtCode = Some d ->
  possibleNames d = spec_candidates districtCode.
Proof.
  intros Hfind. unfold spec_candidates. rewrite Hfind.
  apply find_district_some in Hfind as [Hin <-].
  each_district Hin; vm_compute; reflexivity.
Qed.

Lemma spec_candidates_nonempty districtCode :
  ~ In EmptyString (spec_candidates districtCode).
Proof.
  unfold spec_candidates. destruct (find_district districtCode) as [d |] eqn:Hfind;
    [| intros []].
  apply find_district_some in Hfind as [Hin <-].
  each_district Hin; vm_compute; intuition discriminate.
Qed.

Lemma includes_empty sub : includes EmptyString sub = true -> sub = EmptyString.
Proof.
  destruct sub; [reflexivity |]. cbn. discriminate.
Qed.

(** The callback of the filter on a row whose label is a string. *)
Lemma matches_district_label districtCode record label :
  record !! "district_name" = Some (JsStr label) ->
  matches_district districtCode record =
  Ok (existsb (fun candidate => includes (toLowerCase label) candidate)
        (spec_candidates districtCode)).
Proof.
  intros Hlabel. unfold matches_district, lowered_district_name, field.
  rewrite Hlabel. cbn [of_json bind].
  destruct (find_district districtCode) as [d |] eqn:Hfind.
  - rewrite (possibleNames_spec _ _ Hfind).
    destruct (String.eqb (toLowerCase label) "") eqn:Hempty; [| reflexivity].
    apply String.eqb_eq in Hempty. rewrite Hempty. f_equal. symmetry.
    apply not_true_iff_false. intros Hex. apply existsb_exists in Hex as (c & Hin & Hc).
    apply includes_empty in Hc. subst c.
    exact (spec_candidates_nonempty districtCode Hin).
  - unfold spec_candidates. rewrite Hfind. reflexivity.
Qed.

Lemma matches_unknown_district districtCode :
  matches_district districtCode (labelled_row "Unknown District") = Ok false.
Proof.
  rewrite (matches_district_label districtCode _ "Unknown District")
    by (vm_compute; reflexivity).
  f_equal. unfold spec_candidates.
  destruct (find_district districtCode) as [d |] eqn:Hfind; [| reflexivity].
  apply find_district_some in Hfind as [Hin <-].
  each_district Hin; vm_compute; reflexivity.
Qed.



(** ** The end-to-end scenario *)

Lemma processAPIData_ntr now (row : gmap string json) :
  row !! "district_name" = Some (JsStr "NTR") ->
  row !! "Total_Exp" = Some (JsNum (25 # 2)) ->
  row !! "Total_Households_Worked" = Some (JsNum (inject_Z 20000)) ->
  row !! "Persondays_of_Central_Liability_so_far" = Some (JsNum (inject_Z 450000)) ->
  exists b,
    processAPIData now [row] "AP004" "2024-03" = Ok b /\
    total_amount_spent b = JNumber (Num (25 # 2)) /\
    total_households b = JNumber (of_Z 20000) /\
    total_person_days b = JNumber (of_Z 450000) /\
    data_source b = "data.gov.in" /\
    performance_score b = JNumber (of_Z 85).
Proof.
  intros Hname Hexp Hhouseholds Hdays. unfold processAPIData.
  cbn [filter_result]. rewrite (matches_district_label "AP004" row "NTR" Hname).
  replace (existsb _ (spec_candidates "AP004")) with true by (vm_compute; reflexivity).
  cbn [bind]. eexists. split; [reflexivity |].
  cbn [total_amount_spent total_households total_person_days data_source
       performance_score].
  unfold field. rewrite Hexp, Hhouseholds, Hdays.
  repeat split; vm_compute; reflexivity.
Qed.

(** C5: entity AP004, period 2024-03, nothing served from the cache, and
    an upstream response of exactly one row with district_name "NTR",
    Total_Exp 12.5, Total_Households_Worked 20000 and
    Persondays_of_Central_Liability_so_far 450000: the fetch returns a
    bundle with total_amount_spent 12.5, data_source "data.gov.in" (the
    upstream tag) and a performance score of 85, which lies between 85
    and 100. *)
Theorem fetchDistrictData_ntr_scenario :
  forall (Math_sin : Z -> Q) (READ_ONLY_DB : bool) (env : Env)
         (cache : gmap string CacheRow) (row : gmap string json),
    row !! "district_name" = Some (JsStr "NTR") ->
    row !! "Total_Exp" = Some (JsNum (25 # 2)) ->
    row !! "Total_Households_Worked" = Some (JsNum (inject_Z 20000)) ->
    row !! "Persondays_of_Central_Liability_so_far" = Some (JsNum (inject_Z 450000)) ->
    axios_get env "2024-2025" (JString "Mar") = Response (Some [row]) ->
    getCachedData env cache (cache_key "AP004" "2024-03") = Ok None ->
    READ_ONLY_DB = true \/ db_run_error env = None ->
    exists b,
      outcome (fetchDistrictData Math_sin READ_ONLY_DB env cache "AP004" "2024-03") = Ok b /\
      total_amount_spent b = JNumber (Num (25 # 2)) /\
      data_source b = "data.gov.in" /\
      performance_score b = JNumber (of_Z 85) /\
      integer_between 85 100 (performance_score b).
Proof.
  intros Math_sin READ_ONLY_DB env cache row Hname Hexp Hhouseholds Hdays
    Hupstream Hmiss Hwrite.
  destruct (processAPIData_ntr (clock_data env) row Hname Hexp Hhouseholds Hdays)
    as (b & Hb & Hspent & _ & _ & Hsource & Hscore).
  exists b. unfold fetchDistrictData. rewrite Hmiss.
  unfold fetchRealAPIData.
  change (request_of "2024-03") with ("2024-2025", JString "Mar").
  cbn iota. rewrite Hupstream, Hb. unfold setCachedData.
  assert (Hfields : total_amount_spent b = JNumber (Num (25 # 2)) /\
                    data_source b = "data.gov.in" /\
                    performance_score b = JNumber (of_Z 85) /\
                    integer_between 85 100 (performance_score b)).
  { repeat split; try assumption. exists 85. split; [exact Hscore | lia]. }
  destruct Hwrite as [-> | ->]; [| destruct READ_ONLY_DB]; cbn; split; auto.
Qed.

Lemma fetchDistrictData_ntr_scenario_witness :
  exists b,
    outcome (fetchDistrictData sin_approx false
               (calm_env 1710493200000 (Response (Some [ntr_row]))) ∅
               "AP004" "2024-03") = Ok b /\
    total_amount_spent b = JNumber (Num (25 # 2)) /\
    data_source b = "data.gov.in" /\
    performance_score b = JNumber (of_Z 85) /\
    integer_between 85 100 (performance_score b).
Proof.
  apply (fetchDistrictData_ntr_scenario sin_approx false
           (calm_env 1710493200000 (Response (Some [ntr_row]))) ∅ ntr_row);
    try (vm_compute; reflexivity).
  right. reflexivity.
Defined.

(** ** Outcomes of [fetchDistrictData] *)

Lemma filter_result_none {A : Type} (p : A -> result bool) (l : list A) :
  Forall (fun x => p x = Ok false) l -> filter_result p l = Ok [].
Proof.
  induction 1 as [| x l Hx _ IH]; [reflexivity |].
  cbn [filter_result]. rewrite Hx, IH. reflexivity.
Qed.

Section Outcomes.

Variable Math_sin : Z -> Q.
Variable READ_ONLY_DB : bool.

Lemma fetchDistrictData_read_error env cache districtCode monthYear err :
  db_get_error env = Some err ->
  fetchDistrictData Math_sin READ_ONLY_DB env cache districtCode monthYear
  = mkRun (Throw "Failed to fetch district data") cache [].
Proof.
  intros Herr. unfold fetchDistrictData, getCachedData. rewrite Herr. reflexivity.
Qed.

Lemma fetchDistrictData_hit env cache districtCode monthYear b :
  getCachedData env cache (cache_key districtCode monthYear) = Ok (Some b) ->
  fetchDistrictData Math_sin READ_ONLY_DB env cache districtCode monthYear
  = mkRun (Ok b) cache [].
Proof.
  intros Hhit. unfold fetchDistrictData. rewrite Hhit. reflexivity.
Qed.

Lemma fetchDistrictData_miss env cache districtCode monthYear :
  getCachedData env cache (cache_key districtCode monthYear) = Ok None ->
  fetchDistrictData Math_sin READ_ONLY_DB env cache districtCode monthYear
  = let data := fresh_data Math_sin env districtCode monthYear in
    if READ_ONLY_DB then mkRun (Ok data) cache [request_of monthYear]
    else match db_run_error env with
         | Some _ =>
             mkRun (Throw "Failed to fetch district data") cache
               [request_of monthYear]
         | None =>
             mkRun (Ok data)
               (<[ cache_key districtCode monthYear :=
                     mkRow (JSON_roundtrip data)
                       (toISOString (clock_insert env + six_hours)) ]> cache)
               [request_of monthYear]
         end.
Proof.
  intros Hmiss. unfold fetchDistrictData, fresh_data, setCachedData. rewrite Hmiss.
  destruct (fetchRealAPIData env districtCode monthYear);
    destruct READ_ONLY_DB; try reflexivity;
    destruct (db_run_error env); reflexivity.
Qed.

(** The upstream fetch throws when the request fails, when the response
    has no records, and when no row matches the district. *)
Lemma fetchRealAPIData_throws env districtCode monthYear :
  (exists err, axios_get env (fst (request_of monthYear)) (snd (request_of monthYear))
               = NetworkError err) \/
  axios_get env (fst (request_of monthYear)) (snd (request_of monthYear))
    = Response None \/
  (exists records,
      axios_get env (fst (request_of monthYear)) (snd (request_of monthYear))
        = Response (Some records) /\
      Forall (fun r => matches_district districtCode r = Ok false) records) ->
  exists err, fetchRealAPIData env districtCode monthYear = Throw err.
Proof.
  unfold fetchRealAPIData. destruct (request_of monthYear) as [finYear monthName].
  cbn [fst snd]. intros [[err ->] | [-> | (records & -> & Hnone)]].
  - eexists; reflexivity.
  - eexists; reflexivity.
  - unfold processAPIData. rewrite (filter_result_none _ _ Hnone).
    eexists; reflexivity.
Qed.

End Outcomes.

(** C1, as amended: [fetchDistrictData] returns a bundle whenever the
    cache read succeeds and the cache write succeeds or is skipped (cache
    hit, or read-only mode). On a hit it is the cached bundle; on a miss
    it is the upstream bundle, or the generated one when the request
    fails, the response has no records or no row matches. An error of the
    cache read, and an error of the cache write after a miss, are raised
    to the caller as "Failed to fetch district data". *)
Theorem fetchDistrictData_outcome :
  forall (Math_sin : Z -> Q) (READ_ONLY_DB : bool) (env : Env)
         (cache : gmap string CacheRow) (districtCode monthYear : string),
    let run := fetchDistrictData Math_sin READ_ONLY_DB env cache districtCode monthYear in
    let cached := getCachedData env cache (cache_key districtCode monthYear) in
    let mock := generateMockData Math_sin (clock_data env) districtCode monthYear in
    let upstream := axios_get env (fst (request_of monthYear)) (snd (request_of monthYear)) in
    (forall b, cached = Ok (Some b) -> outcome run = Ok b) /\
    (cached = Ok None -> READ_ONLY_DB = true \/ db_run_error env = None ->
       (forall b, fetchRealAPIData env districtCode monthYear = Ok b ->
                  outcome run = Ok b) /\
       (forall err, fetchRealAPIData env districtCode monthYear = Throw err ->
                    outcome run = Ok mock) /\
       ((exists err, upstream = NetworkError err) \/
        upstream = Response None \/
        (exists records,
            upstream = Response (Some records) /\
            Forall (fun r => matches_district districtCode r = Ok false) records) ->
        outcome run = Ok mock)) /\
    (forall err, db_get_error env = Some err ->
       outcome run = Throw "Failed to fetch district data") /\
    (forall err, cached = Ok None -> READ_ONLY_DB = false ->
       db_run_error env = Some err ->
       outcome run = Throw "Failed to fetch district data").
Proof.
  intros Math_sin READ_ONLY_DB env cache districtCode monthYear run cached mock upstream.
  split; [| split; [| split]].
  - intros b Hhit. unfold run. rewrite (fetchDistrictData_hit _ _ _ _ _ _ _ Hhit).
    reflexivity.
  - intros Hmiss Hwrite.
    assert (Hrun : outcome run = Ok (fresh_data Math_sin env districtCode monthYear)).
    { unfold run. rewrite (fetchDistrictData_miss _ _ _ _ _ _ Hmiss). cbn zeta.
      destruct Hwrite as [-> | ->]; [reflexivity |].
      destruct READ_ONLY_DB; reflexivity. }
    rewrite Hrun. unfold fresh_data. split; [| split].
    + intros b ->. reflexivity.
    + intros err ->. reflexivity.
    + intros Hfail.
      destruct (fetchRealAPIData_throws env districtCode monthYear Hfail) as [err ->].
      reflexivity.
  - intros err Herr. unfold run.
    rewrite (fetchDistrictData_read_error _ _ _ _ _ _ _ Herr). reflexivity.
  - intros err Hmiss -> Herr. unfold run.
    rewrite (fetchDistrictData_miss _ _ _ _ _ _ Hmiss). cbn zeta. rewrite Herr.
    reflexivity.
Qed.

Lemma fetchDistrictData_outcome_witness :
  outcome (fetchDistrictData sin_approx false
             (calm_env 1710493200000 (NetworkError "connect ETIMEDOUT")) ∅
             "AP004" "2024-03")
  = Ok (generateMockData sin_approx 1710493200000 "AP004" "2024-03") /\
  outcome (fetchDistrictData sin_approx false env_read_fails ∅ "AP004" "2024-03")
  = Throw "Failed to fetch district data".
Proof.
  split.
  - apply (fetchDistrictData_outcome sin_approx false
             (calm_env 1710493200000 (NetworkError "connect ETIMEDOUT")) ∅
             "AP004" "2024-03").
    + reflexivity.
    + right. reflexivity.
    + left. exists "connect ETIMEDOUT". reflexivity.
  - destruct (fetchDistrictData_outcome sin_approx false env_read_fails ∅
                "AP004" "2024-03") as (_ & _ & Hread & _).
    apply (Hread "SQLITE_BUSY: database is locked"). reflexivity.
Defined.

(** C1, as stated, fails: when SQLite reports an error to the cache read,
    or to the cache write after a miss, the call throws instead of
    returning a bundle. *)
Lemma fetchDistrictData_raises_cache_errors :
  outcome (fetchDistrictData sin_approx false env_read_fails ∅ "AP001" "2024-03")
    = Throw "Failed to fetch district data" /\
  outcome (fetchDistrictData sin_approx false env_write_fails ∅ "AP001" "2024-03")
    = Throw "Failed to fetch district data" /\
  ~ (forall env cache districtCode monthYear,
        is_ok (outcome (fetchDistrictData sin_approx false env cache
                          districtCode monthYear)) = true).
Proof.
  split; [reflexivity | split; [reflexivity |]].
  intros Hnever.
  specialize (Hnever env_read_fails ∅ "AP001" "2024-03"). discriminate Hnever.
Qed.

(** ** Dates as text *)

Lemma civil_from_days_succ n :
  0 <= n -> civil_from_days (n + 1) = next_day (civil_from_days n).
Proof.
  intros Hn. unfold civil_from_days. rewrite !iter_nat_of_Z by lia.
  replace (Z.abs_nat (n + 1)) with (S (Z.abs_nat n)) by lia. reflexivity.
Qed.

Lemma days_in_month_range y m : 28 <= days_in_month y m <= 31.
Proof.
  unfold days_in_month.
  destruct (m =? 2); [destruct (is_leap y); lia |].
  destruct ((m =? 4) || (m =? 6) || (m =? 9) || (m =? 11)); lia.
Qed.

(** The next day is a date of the calendar, with a larger key. *)
Lemma next_day_step d :
  valid_date d -> valid_date (next_day d) /\ date_key d < date_key (next_day d).
Proof.
  unfold valid_date, next_day, date_key. intros (Hy & Hm & Hd).
  pose proof (days_in_month_range (dyear d) (dmonth d)).
  destruct (dday d <? days_in_month (dyear d) (dmonth d)) eqn:Hday;
    [apply Z.ltb_lt in Hday; cbn; lia |].
  destruct (dmonth d <? 12) eqn:Hmonth;
    [apply Z.ltb_lt in Hmonth | apply Z.ltb_ge in Hmonth]; cbn; lia.
Qed.

Lemma civil_from_days_valid n : 0 <= n -> valid_date (civil_from_days n).
Proof.
  revert n. apply natlike_ind.
  - unfold valid_date. cbn. lia.
  - intros n Hn IH. unfold Z.succ. rewrite civil_from_days_succ by exact Hn.
    apply next_day_step. exact IH.
Qed.

Lemma civil_from_days_mono a b :
  0 <= a <= b -> date_key (civil_from_days a) <= date_key (civil_from_days b).
Proof.
  intros [Ha Hab]. replace b with (a + (b - a)) by lia.
  assert (Hk : 0 <= b - a) by lia. revert Hk. generalize (b - a).
  apply natlike_ind; [rewrite Z.add_0_r; lia |].
  intros k Hk IH. replace (a + Z.succ k) with ((a + k) + 1) by lia.
  rewrite civil_from_days_succ by lia.
  pose proof (next_day_step (civil_from_days (a + k))
                (civil_from_days_valid (a + k) ltac:(lia))) as [_ Hstep].
  lia.
Qed.

(** A later day has a strictly larger key. *)
Lemma civil_from_days_strict a b :
  0 <= a < b -> date_key (civil_from_days a) < date_key (civil_from_days b).
Proof.
  intros [Ha Hab].
  pose proof (civil_from_days_mono (a + 1) b ltac:(lia)) as Hmono.
  rewrite civil_from_days_succ in Hmono by exact Ha.
  pose proof (next_day_step (civil_from_days a) (civil_from_days_valid a Ha))
    as [_ Hstep].
  lia.
Qed.

(** Dates of instants up to the end of year 9999. *)
Lemma utc_date_range t :
  0 <= t <= last_instant ->
  valid_date (utc_date t) /\ dyear (utc_date t) <= 9999.
Proof.
  intros [H0 Hmax]. unfold utc_date.
  assert (Hdays : 0 <= t / ms_per_day <= 2932896).
  { unfold ms_per_day, last_instant in *. split.
    - apply Z.div_pos; lia.
    - assert (t / 86400000 < 2932897) by (apply Z.div_lt_upper_bound; lia). lia. }
  pose proof (civil_from_days_valid (t / ms_per_day) ltac:(lia)) as Hvalid.
  split; [exact Hvalid |].
  pose proof (civil_from_days_mono (t / ms_per_day) 2932896 Hdays) as Hmono.
  replace (date_key (civil_from_days 2932896)) with 99991231 in Hmono
    by (vm_compute; reflexivity).
  unfold valid_date, date_key in *. lia.
Qed.

Lemma ascii_compare_refl c : Ascii.compare c c = Eq.
Proof. unfold Ascii.compare. apply N.compare_refl. Qed.

Lemma append_cons c p s :
  String.append (String c p) s = String c (String.append p s).
Proof. reflexivity. Qed.

Lemma append_pad2 n s :
  String.append (pad2 n) s = String (digit_char (n / 10)) (String (digit_char n) s).
Proof. reflexivity. Qed.

Lemma append_empty_r s : String.append s EmptyString = s.
Proof.
  induction s as [| c s IH]; [reflexivity |]. rewrite append_cons, IH. reflexivity.
Qed.

Lemma compare_append_same p s t :
  String.compare (String.append p s) (String.append p t) = String.compare s t.
Proof.
  induction p as [| c p IH]; [reflexivity |].
  rewrite !append_cons. cbn [String.compare]. rewrite ascii_compare_refl. exact IH.
Qed.

Lemma digit_char_compare x y :
  Ascii.compare (digit_char x) (digit_char y) = (x mod 10 ?= y mod 10).
Proof.
  unfold Ascii.compare, digit_char.
  pose proof (Z.mod_pos_bound x 10 ltac:(lia)).
  pose proof (Z.mod_pos_bound y 10 ltac:(lia)).
  rewrite !N_ascii_embedding by lia.
  rewrite Z2N.inj_compare by lia. apply Z.add_compare_mono_l.
Qed.

Lemma pad2_compare a b s t :
  0 <= a < 100 -> 0 <= b < 100 ->
  String.compare (String.append (pad2 a) s) (String.append (pad2 b) t)
  = lex (a ?= b) (String.compare s t).
Proof.
  intros Ha Hb. rewrite !append_pad2. cbn [String.compare].
  rewrite !digit_char_compare.
  destruct (Z.compare_spec (a / 10 mod 10) (b / 10 mod 10)) as [H1 | H1 | H1];
    destruct (Z.compare_spec (a mod 10) (b mod 10)) as [H2 | H2 | H2];
    destruct (Z.compare_spec a b) as [H3 | H3 | H3];
    try reflexivity; exfalso; revert H1 H2 H3; Z.div_mod_to_equations; lia.
Qed.

Lemma pad2_mod n : pad2 n = pad2 (n mod 100).
Proof.
  unfold pad2, digit_char.
  replace ((n mod 100 / 10) mod 10) with ((n / 10) mod 10)
    by (Z.div_mod_to_equations; lia).
  replace ((n mod 100) mod 10) with (n mod 10)
    by (Z.div_mod_to_equations; lia).
  reflexivity.
Qed.

Lemma pad4_compare a b s t :
  0 <= a < 10000 -> 0 <= b < 10000 ->
  String.compare (String.append (pad4 a) s) (String.append (pad4 b) t)
  = lex (a ?= b) (String.compare s t).
Proof.
  intros Ha Hb. unfold pad4.
  rewrite (pad2_mod a), (pad2_mod b).
  change (String.append (String.append (pad2 (a / 100)) (pad2 (a mod 100))) s)
    with (String.append (pad2 (a / 100)) (String.append (pad2 (a mod 100)) s)).
  change (String.append (String.append (pad2 (b / 100)) (pad2 (b mod 100))) t)
    with (String.append (pad2 (b / 100)) (String.append (pad2 (b mod 100)) t)).
  rewrite !pad2_compare by (Z.div_mod_to_equations; lia).
  destruct (Z.compare_spec (a / 100) (b / 100)) as [H1 | H1 | H1];
    destruct (Z.compare_spec (a mod 100) (b mod 100)) as [H2 | H2 | H2];
    destruct (Z.compare_spec a b) as [H3 | H3 | H3];
    try reflexivity; exfalso; revert H1 H2 H3; Z.div_mod_to_equations; lia.
Qed.

(** Comparing two texts that start with a date compares the dates, then
    what follows them. *)
Lemma date_string_compare d1 d2 s t :
  valid_date d1 -> dyear d1 <= 9999 -> valid_date d2 -> dyear d2 <= 9999 ->
  String.compare (String.append (date_string d1) s) (String.append (date_string d2) t)
  = lex (date_key d1 ?= date_key d2) (String.compare s t).
Proof.
  unfold valid_date, date_key. intros (Hy1 & Hm1 & Hd1) Hmax1 (Hy2 & Hm2 & Hd2) Hmax2.
  unfold date_string.
  set (tail1 := String "-" (String.append (pad2 (dmonth d1))
                              (String "-" (String.append (pad2 (dday d1)) s)))).
  set (tail2 := String "-" (String.append (pad2 (dmonth d2))
                              (String "-" (String.append (pad2 (dday d2)) t)))).
  assert (E1 : String.append
                 (String.append (pad4 (dyear d1))
                    (String "-" (String.append (pad2 (dmonth d1))
                                   (String "-" (pad2 (dday d1)))))) s
               = String.append (pad4 (dyear d1)) tail1) by reflexivity.
  assert (E2 : String.append
                 (String.append (pad4 (dyear d2))
                    (String "-" (String.append (pad2 (dmonth d2))
                                   (String "-" (pad2 (dday d2)))))) t
               = String.append (pad4 (dyear d2)) tail2) by reflexivity.
  rewrite E1, E2, pad4_compare by lia. unfold tail1, tail2.
  cbn [String.compare]. rewrite ascii_compare_refl.
  rewrite pad2_compare by lia.
  cbn [String.compare]. rewrite ascii_compare_refl.
  rewrite pad2_compare by lia.
  destruct (Z.compare_spec (dyear d1) (dyear d2));
    destruct (Z.compare_spec (dmonth d1) (dmonth d2));
    destruct (Z.compare_spec (dday d1) (dday d2));
    destruct (Z.compare_spec (dyear d1 * 10000 + dmonth d1 * 100 + dday d1)
                (dyear d2 * 10000 + dmonth d2 * 100 + dday d2));
    try reflexivity; exfalso; lia.
Qed.

(** The comparison of the [SELECT]: only the UTC dates count. A row is
    served on every day up to and including the day of its expiry. *)
Lemma expiry_test_by_date expires now :
  0 <= expires <= last_instant -> 0 <= now <= last_instant ->
  text_gt (toISOString expires) (sqlite_datetime now)
  = (date_key (utc_date now) <=? date_key (utc_date expires)).
Proof.
  intros He Hn.
  destruct (utc_date_range expires He) as [Hv1 Hy1].
  destruct (utc_date_range now Hn) as [Hv2 Hy2].
  unfold text_gt, toISOString, sqlite_datetime.
  rewrite date_string_compare by assumption.
  destruct (Z.compare_spec (date_key (utc_date expires)) (date_key (utc_date now)))
    as [Heq | Hlt | Hgt]; cbn [lex].
  - rewrite Heq, Z.leb_refl. reflexivity.
  - symmetry. apply Z.leb_gt. exact Hlt.
  - symmetry. apply Z.leb_le. lia.
Qed.

(** Before its expiry, a row is served. *)
Lemma expiry_test_within expires now :
  0 <= now -> now < expires -> expires <= last_instant ->
  text_gt (toISOString expires) (sqlite_datetime now) = true.
Proof.
  intros H0 Hlt Hmax. rewrite expiry_test_by_date by lia.
  apply Z.leb_le. unfold utc_date. apply civil_from_days_mono.
  unfold ms_per_day. split; [apply Z.div_pos; lia | apply Z.div_le_mono; lia].
Qed.

(** After its expiry, a row is still served until the UTC day ends. *)
Lemma expiry_test_same_day expires now :
  0 <= expires -> now <= last_instant ->
  expires / ms_per_day = now / ms_per_day ->
  text_gt (toISOString expires) (sqlite_datetime now) = true.
Proof.
  intros H0 Hmax Hday.
  assert (Hnow : 0 <= now).
  { unfold ms_per_day in Hday.
    assert (0 <= expires / 86400000) by (apply Z.div_pos; lia).
    destruct (Z.lt_ge_cases now 0) as [Hneg |]; [| assumption].
    assert (now / 86400000 < 0) by (apply Z.div_lt_upper_bound; lia). lia. }
  assert (Hexp : expires <= last_instant).
  { unfold ms_per_day, last_instant in *.
    assert (now / 86400000 < 2932897) by (apply Z.div_lt_upper_bound; lia).
    destruct (Z.le_gt_cases expires 253402300799999) as [| Hbig]; [assumption |].
    assert (2932897 <= expires / 86400000) by (apply Z.div_le_lower_bound; lia).
    lia. }
  rewrite expiry_test_by_date by lia.
  unfold utc_date. rewrite Hday. apply Z.leb_refl.
Qed.

(** ** Bundles through the cache *)

Lemma int_or_zero_integer v : exists z, int_or_zero v = of_Z z.
Proof. unfold int_or_zero. destruct (parseInt v); eexists; reflexivity. Qed.

Lemma float_or_zero_number v : exists q, float_or_zero v = Num q.
Proof.
  unfold float_or_zero, or_zero. destruct (parseFloat v) as [| q]; cbn.
  - eexists; reflexivity.
  - destruct (negb (Qeq_bool q 0)); eexists; reflexivity.
Qed.

Lemma div_by_integer x k :
  k <> 0 -> JS.div (Num x) (Num (inject_Z k)) = Num (Qred (x / inject_Z k)).
Proof.
  intros Hk. unfold JS.div.
  destruct (Qeq_bool (inject_Z k) 0) eqn:Hz; [| reflexivity].
  apply Qeq_bool_eq in Hz. exfalso. apply Hk.
  unfold Qeq in Hz. cbn in Hz. lia.
Qed.

Lemma average_amount_number x z :
  exists r,
    (if JS.gt (of_Z z) (of_Z 0)
     then JS.div (JS.round (JS.mul (JS.div (Num x) (of_Z z)) (of_Z 100))) (of_Z 100)
     else of_Z 0) = Num r.
Proof.
  destruct (JS.gt (of_Z z) (of_Z 0)) eqn:Hgt; [| eexists; reflexivity].
  apply gt_Num in Hgt. change (inject_Z 0 < inject_Z z)%Q in Hgt.
  rewrite <- Zlt_Qlt in Hgt.
  unfold of_Z. rewrite (div_by_integer x z) by lia. cbn [JS.mul lift2 JS.round].
  unfold of_Z. rewrite div_by_integer by lia.
  eexists; reflexivity.
Qed.

Lemma json_value_field r k : json_value (field r k) = field r k.
Proof. unfold field. destruct (r !! k) as [[| | |] |]; reflexivity. Qed.

Lemma json_value_or a b :
  json_value a = a -> json_value b = b -> json_value (or_value a b) = or_value a b.
Proof. intros Ha Hb. unfold or_value. destruct (truthy a); assumption. Qed.

(** A bundle made from upstream rows holds no NaN: it is read back from
    the cache as it was written. *)
Lemma processAPIData_json now records districtCode monthYear b :
  processAPIData now records districtCode monthYear = Ok b -> JSON_roundtrip b = b.
Proof.
  unfold processAPIData, bind.
  destruct (filter_result (matches_district districtCode) records) as [[| r rest] |];
    try discriminate.
  intros Hb. injection Hb as <-. unfold JSON_roundtrip.
  cbn [district_code district_name month_year total_households total_person_days
       total_amount_spent avg_days_per_household avg_amount_per_household
       performance_score data_source last_updated financial_year month
       average_wage_rate women_persondays sc_persondays st_persondays
       completed_works ongoing_works total_individuals_worked total_job_cards
       households_100_days differently_abled_worked payment_within_15_days].
  destruct (int_or_zero_integer (field r "Total_Households_Worked")) as [h ->].
  destruct (float_or_zero_number (field r "Total_Exp")) as [x ->].
  destruct (average_amount_number x h) as [avg ->].
  repeat match goal with
    | |- context [int_or_zero ?v] =>
        let z := fresh "z" in destruct (int_or_zero_integer v) as [z ->]
    | |- context [float_or_zero ?v] =>
        let q := fresh "q" in destruct (float_or_zero_number v) as [q ->]
    end.
  rewrite !json_value_field.
  rewrite json_value_or;
    [reflexivity
    | destruct (find_district districtCode); reflexivity
    | apply json_value_or; [apply json_value_field | reflexivity]].
Qed.

Section CachedBundles.

Variable Math_sin : Z -> Q.

(** So does a bundle generated from a numeric seed. *)
Lemma generateMockData_json now districtCode monthYear :
  seed_of districtCode monthYear <> None ->
  JSON_roundtrip (generateMockData Math_sin now districtCode monthYear)
  = generateMockData Math_sin now districtCode monthYear.
Proof.
  intros Hseed. unfold generateMockData.
  destruct (seed_of districtCode monthYear) as [s |]; [| congruence].
  destruct (seededRandom_range Math_sin s 15000 45000) as (k1 & -> & B1); [lia |].
  destruct (seededRandom_range Math_sin s 18 28) as (k2 & -> & B2); [lia |].
  destruct (seededRandom_range Math_sin s 200 250) as (k3 & -> & B3); [lia |].
  destruct (seededRandom_range Math_sin s 75 95) as (k4 & -> & B4); [lia |].
  destruct (seededRandom_range Math_sin s 50 200) as (k5 & -> & B5); [lia |].
  destruct (seededRandom_range Math_sin s 100 300) as (k6 & -> & B6); [lia |].
  unfold JSON_roundtrip.
  cbn [district_code district_name month_year total_households total_person_days
       total_amount_spent avg_days_per_household avg_amount_per_household
       performance_score data_source last_updated financial_year month
       average_wage_rate women_persondays sc_persondays st_persondays
       completed_works ongoing_works total_individuals_worked total_job_cards
       households_100_days differently_abled_worked payment_within_15_days].
  unfold of_Z.
  repeat (cbn [JS.mul JS.floor JS.round lift2]; unfold of_Z;
          rewrite div_by_integer by lia).
  cbn [json_value].
  rewrite json_value_or;
    [ | destruct (find_district districtCode); reflexivity | reflexivity].
  unfold array_get. destruct (nth_error (split_dash monthYear) 1); reflexivity.
Qed.

(** What a cache miss computes is read back from the cache as it is. *)
Lemma fresh_data_json env districtCode monthYear :
  seed_of districtCode monthYear <> None ->
  JSON_roundtrip (fresh_data Math_sin env districtCode monthYear)
  = fresh_data Math_sin env districtCode monthYear.
Proof.
  intros Hseed. unfold fresh_data, fetchRealAPIData.
  destruct (request_of monthYear) as [finYear monthName].
  destruct (axios_get env finYear monthName) as [err | [records |]];
    try (apply generateMockData_json; exact Hseed).
  destruct (processAPIData (clock_data env) records districtCode monthYear) as [b |] eqn:Hb.
  - exact (processAPIData_json _ _ _ _ _ Hb).
  - apply generateMockData_json; exact Hseed.
Qed.

End CachedBundles.

(** ** Cache expiry *)

Lemma getCachedData_stored env cache key b expires :
  db_get_error env = None ->
  getCachedData env (<[ key := mkRow b expires ]> cache) key
  = if text_gt expires (sqlite_datetime (clock_select env))
    then Ok (Some b) else Ok None.
Proof.
  intros Hget. unfold getCachedData. rewrite Hget, lookup_insert_eq. reflexivity.
Qed.

(** A row that expired earlier on the current UTC day is still served. *)
Lemma getCachedData_after_expiry env cache key b expires :
  db_get_error env = None ->
  0 <= expires -> expires < clock_select env <= last_instant ->
  expires / ms_per_day = clock_select env / ms_per_day ->
  getCachedData env (<[ key := mkRow b (toISOString expires) ]> cache) key
  = Ok (Some b).
Proof.
  intros Hget H0 Hlate Hday. rewrite getCachedData_stored by exact Hget.
  rewrite expiry_test_same_day by (try assumption; lia). reflexivity.
Qed.

(** From the day after its expiry on, the row is a miss. *)
Lemma getCachedData_later_day env cache key b expires :
  db_get_error env = None ->
  0 <= expires -> clock_select env <= last_instant ->
  expires / ms_per_day < clock_select env / ms_per_day ->
  getCachedData env (<[ key := mkRow b (toISOString expires) ]> cache) key
  = Ok None.
Proof.
  intros Hget H0 Hmax Hday. rewrite getCachedData_stored by exact Hget.
  assert (Hdays : 0 <= expires / ms_per_day)
    by (unfold ms_per_day; apply Z.div_pos; lia).
  assert (Hnow : 0 <= clock_select env).
  { destruct (Z.lt_ge_cases (clock_select env) 0) as [Hneg |]; [| assumption].
    assert (clock_select env / ms_per_day < 0)
      by (unfold ms_per_day; apply Z.div_lt_upper_bound; lia).
    lia. }
  assert (Hexp : expires <= last_instant).
  { destruct (Z.le_gt_cases expires (clock_select env)) as [| Hgt]; [lia |].
    assert (clock_select env / ms_per_day <= expires / ms_per_day)
      by (unfold ms_per_day; apply Z.div_le_mono; lia).
    lia. }
  rewrite expiry_test_by_date by lia.
  replace (date_key (utc_date (clock_select env)) <=? date_key (utc_date expires))
    with false; [reflexivity |].
  symmetry. apply Z.leb_gt. unfold utc_date. apply civil_from_days_strict. lia.
Qed.

(** C3 fails on the code: a row written by [setCachedData] at 03:00 UTC
    on 2024-03-15 with the six-hour TTL carries [expires_at]
    "2024-03-15T09:00:00.000Z"; a read at 12:00 UTC the same day, three
    hours after the expiry, compares that text with "2024-03-15 12:00:00"
    and returns the row instead of a miss. *)
Theorem getCachedData_serves_expired_row :
  forall (key : string) (b : Bundle),
    let written :=
      snd (setCachedData false (calm_env 1710471600000 (Response None)) ∅
             key b six_hours) in
    let reader := calm_env 1710504000000 (Response None) in
    written !! key = Some (mkRow (JSON_roundtrip b) "2024-03-15T09:00:00.000Z") /\
    1710471600000 + six_hours < clock_select reader /\
    sqlite_datetime (clock_select reader) = "2024-03-15 12:00:00" /\
    getCachedData reader written key = Ok (Some (JSON_roundtrip b)).
Proof.
  intros key b written reader.
  assert (Hwritten : written
            = <[ key := mkRow (JSON_roundtrip b) "2024-03-15T09:00:00.000Z" ]> ∅).
  { unfold written, setCachedData. cbn [snd calm_env db_run_error clock_insert].
    replace (toISOString (1710471600000 + six_hours))
      with "2024-03-15T09:00:00.000Z" by (vm_compute; reflexivity).
    reflexivity. }
  rewrite Hwritten. split; [apply lookup_insert_eq |].
  split; [vm_compute; reflexivity |].
  split; [vm_compute; reflexivity |].
  rewrite getCachedData_stored by reflexivity.
  replace (text_gt "2024-03-15T09:00:00.000Z" (sqlite_datetime (clock_select reader)))
    with true by (vm_compute; reflexivity).
  reflexivity.
Qed.

(** ** Two calls within the TTL window *)



(** ** History *)

Section HistoryLoop.

Variable Math_sin : Z -> Q.
Variable READ_ONLY_DB : bool.
Variable envs : nat -> Env.
Variable current : Z.
Variable cache : gmap string CacheRow.
Variable districtCode : string.

(** The loop pushes one entry for each index, whatever the fetch does. *)
Lemma history_loop_entries m : forall k sent history,
  let run :=
    history_loop Math_sin READ_ONLY_DB envs current districtCode (seq k m)
      (table_before Math_sin READ_ONLY_DB envs current cache districtCode k)
      sent history in
  outcome run
  = Ok (history
        ++ map (entry_at Math_sin READ_ONLY_DB envs current cache districtCode)
             (seq k m))%list /\
  table run
  = table_before Math_sin READ_ONLY_DB envs current cache districtCode (k + m).
Proof.
  induction m as [| m IH]; intros k sent history.
  - cbn. rewrite app_nil_r, Nat.add_0_r. split; reflexivity.
  - cbn [seq history_loop map].
    specialize (IH (S k)
      (sent ++ requests (fetch_at Math_sin READ_ONLY_DB envs current cache
                           districtCode k))%list
      (history ++ [entry_at Math_sin READ_ONLY_DB envs current cache
                     districtCode k])%list).
    cbn zeta in IH. destruct IH as [IHo IHt].
    replace (k + S m)%nat with (S k + m)%nat by lia.
    rewrite <- app_assoc in IHo. split; [exact IHo | exact IHt].
Qed.

Lemma entry_at_period i :
  History.month_year (entry_at Math_sin READ_ONLY_DB envs current cache districtCode i)
  = format_YYYY_MM (current - Z.of_nat i).
Proof.
  unfold entry_at.
  destruct (outcome (fetch_at Math_sin READ_ONLY_DB envs current cache districtCode i));
    reflexivity.
Qed.

End HistoryLoop.

(** Periods of years 0 to 9999 are ordered as text the way they are
    ordered in time. *)
Lemma format_YYYY_MM_lt a b :
  0 <= a -> a < b -> b < 120000 ->
  String.compare (format_YYYY_MM a) (format_YYYY_MM b) = Lt.
Proof.
  intros H0 Hab Hmax. unfold format_YYYY_MM.
  rewrite pad4_compare by (Z.div_mod_to_equations; lia).
  cbn [String.compare]. rewrite ascii_compare_refl.
  rewrite <- (append_empty_r (pad2 (a mod 12 + 1))) at 1.
  rewrite <- (append_empty_r (pad2 (b mod 12 + 1))) at 1.
  rewrite pad2_compare by (Z.div_mod_to_equations; lia).
  destruct (Z.compare_spec (a / 12) (b / 12)) as [H1 | H1 | H1];
    destruct (Z.compare_spec (a mod 12 + 1) (b mod 12 + 1)) as [H2 | H2 | H2];
    try reflexivity; exfalso; revert H1 H2; Z.div_mod_to_equations; lia.
Qed.



(** * Further properties of the service *)

(** ** The lifetime of a cache row *)

Lemma day_of_range t : 0 <= t <= last_instant -> 0 <= day_of t.
Proof. intros [H0 _]. unfold day_of, ms_per_day. apply Z.div_pos; lia. Qed.

(** X1: A row written by [setCachedData] is served by [getCachedData] on
    every UTC day up to and including the day on which its TTL ends, and
    on no later day: the TTL is rounded up to the end of the UTC day. *)
Theorem cached_row_lifetime :
  forall (writer reader : Env) (cache : gmap string CacheRow) (key : string)
         (b : Bundle) (ttl : Z),
    db_run_error writer = None ->
    db_get_error reader = None ->
    0 <= clock_insert writer + ttl <= last_instant ->
    0 <= clock_select reader <= last_instant ->
    let written := snd (setCachedData false writer cache key b ttl) in
    (day_of (clock_select reader) <= day_of (clock_insert writer + ttl) ->
     getCachedData reader written key = Ok (Some (JSON_roundtrip b))) /\
    (day_of (clock_insert writer + ttl) < day_of (clock_select reader) ->
     getCachedData reader written key = Ok None).
Proof.
  intros writer reader cache key b ttl Hrun Hget Hexp Hnow written.
  assert (Hwritten : written
            = <[ key := mkRow (JSON_roundtrip b)
                          (toISOString (clock_insert writer + ttl)) ]> cache).
  { unfold written, setCachedData. rewrite Hrun. reflexivity. }
  rewrite Hwritten, getCachedData_stored by exact Hget.
  rewrite expiry_test_by_date by assumption.
  pose proof (day_of_range _ Hexp) as Hd1. pose proof (day_of_range _ Hnow) as Hd2.
  unfold utc_date. fold (day_of (clock_select reader)).
  fold (day_of (clock_insert writer + ttl)).
  split; intros Hday.
  - replace (_ <=? _) with true; [reflexivity |].
    symmetry. apply Z.leb_le. apply civil_from_days_mono. lia.
  - replace (_ <=? _) with false; [reflexivity |].
    symmetry. apply Z.leb_gt. apply civil_from_days_strict. lia.
Qed.

Lemma cached_row_lifetime_witness :
  let writer := calm_env 1710471600000 (Response None) in
  let written := snd (setCachedData false writer ∅ "district_AP004_2024-03"
                        (generateMockData sin_approx 0 "AP004" "2024-03") six_hours) in
  getCachedData (calm_env 1710547199000 (Response None)) written "district_AP004_2024-03"
    = Ok (Some (JSON_roundtrip (generateMockData sin_approx 0 "AP004" "2024-03"))) /\
  getCachedData (calm_env 1710547200000 (Response None)) written "district_AP004_2024-03"
    = Ok None.
Proof.
  split.
  - apply (cached_row_lifetime (calm_env 1710471600000 (Response None))
             (calm_env 1710547199000 (Response None)) ∅);
      try reflexivity; vm_compute; try (split; discriminate); discriminate.
  - apply (cached_row_lifetime (calm_env 1710471600000 (Response None))
             (calm_env 1710547200000 (Response None)) ∅);
      try reflexivity; vm_compute; try (split; discriminate); reflexivity.
Defined.

(** ** Cache keys *)

Lemma append_inj_l p s t : String.append p s = String.append p t -> s = t.
Proof.
  induction p as [| c p IH]; [trivial |].
  rewrite !append_cons. intros H. injection H as H. exact (IH H).
Qed.

Lemma append_empty_l s : String.append EmptyString s = s.
Proof. reflexivity. Qed.

Lemma separator_split c1 c2 m1 m2 :
  no_underscore c1 = true -> no_underscore c2 = true ->
  String.append c1 (String "_" m1) = String.append c2 (String "_" m2) ->
  c1 = c2 /\ m1 = m2.
Proof.
  revert c2. induction c1 as [| a c1 IH]; intros [| b c2] H1 H2 Heq.
  - rewrite !append_empty_l in Heq. injection Heq as ->. split; reflexivity.
  - rewrite append_cons, append_empty_l in Heq. cbn in H2. injection Heq as <- _.
    discriminate H2.
  - rewrite append_cons, append_empty_l in Heq. cbn in H1. injection Heq as -> _.
    discriminate H1.
  - rewrite !append_cons in Heq. injection Heq as <- Heq.
    cbn [no_underscore] in H1, H2.
    apply andb_true_iff in H1 as [_ H1]. apply andb_true_iff in H2 as [_ H2].
    destruct (IH c2 H1 H2 Heq) as [-> ->]. split; reflexivity.
Qed.

Lemma cache_key_separates (c1 m1 c2 m2 : string) :
  no_underscore c1 = true -> no_underscore c2 = true ->
  cache_key c1 m1 = cache_key c2 m2 -> c1 = c2 /\ m1 = m2.
Proof.
  intros H1 H2 Heq. unfold cache_key in Heq.
  apply append_inj_l in Heq. apply separator_split; assumption.
Qed.

(** X2: The cache key separates district codes that hold no underscore (as
    all registry codes): two requests share a cache entry only if they
    ask for the same district and period. With an underscore in the code
    two different requests can share one. *)
Theorem cache_key_injective :
  (forall c1 m1 c2 m2 : string,
      no_underscore c1 = true -> no_underscore c2 = true ->
      cache_key c1 m1 = cache_key c2 m2 -> c1 = c2 /\ m1 = m2) /\
  (forall c m1 m2 : string, cache_key c m1 = cache_key c m2 -> m1 = m2) /\
  Forall (fun d => no_underscore (code d) = true) andhraPradeshDistricts /\
  cache_key "AP_001" "2024-03" = cache_key "AP" "001_2024-03".
Proof.
  split; [| split; [| split]].
  - exact cache_key_separates.
  - intros c m1 m2 Heq. unfold cache_key in Heq.
    apply append_inj_l, append_inj_l, append_inj_l in Heq. exact Heq.
  - repeat constructor.
  - reflexivity.
Qed.

Lemma cache_key_injective_witness :
  no_underscore "AP004" = true /\
  cache_key "AP004" "2024-03" = "district_AP004_2024-03" /\
  ("AP004" = "AP004" /\ "2024-03" = "2024-03").
Proof.
  split; [reflexivity |]. split; [reflexivity |].
  apply (proj1 cache_key_injective "AP004" "2024-03" "AP004" "2024-03");
    reflexivity.
Defined.

(** ** What the service writes to the cache *)

Section CacheWrites.

Variable Math_sin : Z -> Q.

Lemma processAPIData_identity now records districtCode monthYear b :
  processAPIData now records districtCode monthYear = Ok b ->
  district_code b = districtCode /\ month_year b = monthYear.
Proof.
  unfold processAPIData, bind.
  destruct (filter_result (matches_district districtCode) records) as [[| r rest] |];
    try discriminate.
  intros Hb. injection Hb as <-. split; reflexivity.
Qed.

Lemma fresh_data_identity env districtCode monthYear :
  district_code (fresh_data Math_sin env districtCode monthYear) = districtCode /\
  month_year (fresh_data Math_sin env districtCode monthYear) = monthYear.
Proof.
  unfold fresh_data.
  destruct (fetchRealAPIData env districtCode monthYear) as [b |] eqn:Hb;
    [| split; reflexivity].
  unfold fetchRealAPIData in Hb. destruct (request_of monthYear) as [finYear monthName].
  destruct (axios_get env finYear monthName) as [err | [records |]]; try discriminate.
  exact (processAPIData_identity _ _ _ _ _ Hb).
Qed.

(** A call leaves the table as it is, or (outside read-only mode) puts
    what it computed under its own key. *)
Lemma fetchDistrictData_table READ_ONLY_DB env cache districtCode monthYear :
  let run := fetchDistrictData Math_sin READ_ONLY_DB env cache districtCode monthYear in
  table run = cache \/
  (READ_ONLY_DB = false /\
   table run
   = <[ cache_key districtCode monthYear :=
          mkRow (JSON_roundtrip (fresh_data Math_sin env districtCode monthYear))
            (toISOString (clock_insert env + six_hours)) ]> cache).
Proof.
  cbn zeta.
  destruct (getCachedData env cache (cache_key districtCode monthYear))
    as [[b |] | err] eqn:Hread.
  - left. rewrite (fetchDistrictData_hit _ _ _ _ _ _ _ Hread). reflexivity.
  - rewrite (fetchDistrictData_miss _ _ _ _ _ _ Hread). cbn zeta.
    destruct READ_ONLY_DB; [left; reflexivity |].
    destruct (db_run_error env); [left; reflexivity | right; split; reflexivity].
  - left. unfold fetchDistrictData. rewrite Hread. reflexivity.
Qed.

(** What every call keeps, the two loops keep. *)
Lemma history_loop_keeps (P : gmap string CacheRow -> Prop) READ_ONLY_DB envs current
  districtCode :
  (forall env cache monthYear,
      P cache ->
      P (table (fetchDistrictData Math_sin READ_ONLY_DB env cache districtCode monthYear))) ->
  forall indices cache sent history,
    P cache ->
    P (table (history_loop Math_sin READ_ONLY_DB envs current districtCode indices
                cache sent history)).
Proof.
  intros Hstep. induction indices as [| i rest IH]; intros cache sent history Hcache.
  - exact Hcache.
  - cbn [history_loop]. apply IH. apply Hstep. exact Hcache.
Qed.

Lemma comparison_loop_keeps (P : gmap string CacheRow -> Prop) READ_ONLY_DB envs
  monthYear :
  (forall env cache districtCode,
      P cache ->
      P (table (fetchDistrictData Math_sin READ_ONLY_DB env cache districtCode monthYear))) ->
  forall districtCodes i cache sent comparison,
    P cache ->
    P (table (comparison_loop Math_sin READ_ONLY_DB envs monthYear i districtCodes
                cache sent comparison)).
Proof.
  intros Hstep. induction districtCodes as [| c rest IH];
    intros i cache sent comparison Hcache.
  - exact Hcache.
  - cbn [comparison_loop]. apply IH. apply Hstep. exact Hcache.
Qed.

Lemma getDistrictHistory_keeps (P : gmap string CacheRow -> Prop) READ_ONLY_DB envs
  today districtCode months :
  (forall env cache monthYear,
      P cache ->
      P (table (fetchDistrictData Math_sin READ_ONLY_DB env cache districtCode monthYear))) ->
  forall cache,
    P cache ->
    P (table (getDistrictHistory Math_sin READ_ONLY_DB envs today cache districtCode months)).
Proof.
  intros Hstep cache Hcache. unfold getDistrictHistory.
  pose proof (history_loop_keeps P READ_ONLY_DB envs (month_index (utc_date today))
                districtCode Hstep (seq 0 (Z.to_nat months)) cache [] [] Hcache) as H.
  destruct (outcome (history_loop _ _ _ _ _ _ _ _ _)); exact H.
Qed.

Lemma getDistrictComparison_keeps (P : gmap string CacheRow -> Prop) READ_ONLY_DB envs
  districtCodes monthYear :
  (forall env cache districtCode,
      P cache ->
      P (table (fetchDistrictData Math_sin READ_ONLY_DB env cache districtCode monthYear))) ->
  forall cache,
    P cache ->
    P (table (getDistrictComparison Math_sin READ_ONLY_DB envs cache districtCodes monthYear)).
Proof.
  intros Hstep cache Hcache. unfold getDistrictComparison.
  pose proof (comparison_loop_keeps P READ_ONLY_DB envs monthYear Hstep districtCodes
                0%nat cache [] [] Hcache) as H.
  destruct (outcome (comparison_loop _ _ _ _ _ _ _ _ _)); exact H.
Qed.

Lemma fetchDistrictData_keyed READ_ONLY_DB env cache districtCode monthYear :
  keyed cache ->
  keyed (table (fetchDistrictData Math_sin READ_ONLY_DB env cache districtCode monthYear)).
Proof.
  intros Hkeyed.
  destruct (fetchDistrictData_table READ_ONLY_DB env cache districtCode monthYear)
    as [-> | [_ ->]]; [exact Hkeyed |].
  intros key row. rewrite lookup_insert. destruct (decide _) as [<- | Hne].
  - intros Hrow. injection Hrow as <-. cbn [data].
    destruct (fresh_data_identity env districtCode monthYear) as [Hc Hm].
    change (district_code (JSON_roundtrip ?b)) with (district_code b).
    change (month_year (JSON_roundtrip ?b)) with (month_year b).
    rewrite Hc, Hm. reflexivity.
  - apply Hkeyed.
Qed.

End CacheWrites.

(** X3: In read-only mode no operation of the service changes the cache
    table, a failing [INSERT] cannot fail a request, and a request whose
    key has no row always goes upstream: nothing is remembered between
    calls. *)
Theorem read_only_mode_never_writes :
  forall (Math_sin : Z -> Q) (env : Env) (envs : nat -> Env)
         (cache : gmap string CacheRow) (districtCode monthYear : string)
         (today months : Z) (districtCodes : list string),
    table (fetchDistrictData Math_sin true env cache districtCode monthYear) = cache /\
    table (getDistrictHistory Math_sin true envs today cache districtCode months) = cache /\
    table (getDistrictComparison Math_sin true envs cache districtCodes monthYear) = cache /\
    (db_get_error env = None ->
     is_ok (outcome (fetchDistrictData Math_sin true env cache districtCode monthYear))
     = true) /\
    (db_get_error env = None -> cache !! cache_key districtCode monthYear = None ->
     requests (fetchDistrictData Math_sin true env cache districtCode monthYear)
     = [request_of monthYear]).
Proof.
  intros Math_sin env envs cache districtCode monthYear today months districtCodes.
  assert (Hstep : forall env cache districtCode monthYear,
            table (fetchDistrictData Math_sin true env cache districtCode monthYear)
            = cache).
  { intros e c d m.
    destruct (fetchDistrictData_table Math_sin true e c d m) as [H | [H _]];
      [exact H | discriminate H]. }
  split; [apply Hstep |].
  split; [apply (getDistrictHistory_keeps Math_sin (fun c => c = cache)); 
          [intros e c m ->; apply Hstep | reflexivity] |].
  split; [apply (getDistrictComparison_keeps Math_sin (fun c => c = cache));
          [intros e c d ->; apply Hstep | reflexivity] |].
  split.
  - intros Hget.
    destruct (getCachedData env cache (cache_key districtCode monthYear))
      as [[b |] | err] eqn:Hread.
    + rewrite (fetchDistrictData_hit _ _ _ _ _ _ _ Hread). reflexivity.
    + rewrite (fetchDistrictData_miss _ _ _ _ _ _ Hread). reflexivity.
    + unfold getCachedData in Hread. rewrite Hget in Hread.
      destruct (cache !! _) as [row |]; [destruct (text_gt _ _) |]; discriminate.
  - intros Hget Hnone.
    assert (Hread : getCachedData env cache (cache_key districtCode monthYear) = Ok None).
    { unfold getCachedData. rewrite Hget, Hnone. reflexivity. }
    rewrite (fetchDistrictData_miss _ _ _ _ _ _ Hread). reflexivity.
Qed.

Lemma read_only_mode_never_writes_witness :
  is_ok (outcome (fetchDistrictData sin_approx true env_write_fails ∅ "AP004" "2024-03"))
  = true /\
  requests (fetchDistrictData sin_approx true env_write_fails ∅ "AP004" "2024-03")
  = [request_of "2024-03"].
Proof.
  destruct (read_only_mode_never_writes sin_approx env_write_fails (fun _ => env_write_fails)
              ∅ "AP004" "2024-03" 0 0 []) as (_ & _ & _ & Hok & Hreq).
  split; [apply Hok | apply Hreq]; reflexivity.
Defined.

(** X4: A call of [fetchDistrictData] touches no cache entry but the one of
    its own key, and every row it writes is stored under the key of the
    district and period of the bundle it holds; the history and the
    comparison keep that invariant of the table too. *)
Theorem cache_rows_stay_keyed :
  forall (Math_sin : Z -> Q) (READ_ONLY_DB : bool) (env : Env) (envs : nat -> Env)
         (cache : gmap string CacheRow) (districtCode monthYear : string)
         (today months : Z) (districtCodes : list string),
    (forall key, key <> cache_key districtCode monthYear ->
       table (fetchDistrictData Math_sin READ_ONLY_DB env cache districtCode monthYear)
         !! key = cache !! key) /\
    (keyed cache ->
     keyed (table (fetchDistrictData Math_sin READ_ONLY_DB env cache districtCode monthYear)) /\
     keyed (table (getDistrictHistory Math_sin READ_ONLY_DB envs today cache
                     districtCode months)) /\
     keyed (table (getDistrictComparison Math_sin READ_ONLY_DB envs cache
                     districtCodes monthYear))).
Proof.
  intros Math_sin READ_ONLY_DB env envs cache districtCode monthYear today months
    districtCodes.
  split.
  - intros key Hkey.
    destruct (fetchDistrictData_table Math_sin READ_ONLY_DB env cache districtCode
                monthYear) as [-> | [_ ->]]; [reflexivity |].
    apply lookup_insert_ne. congruence.
  - intros Hkeyed. split; [| split].
    + apply fetchDistrictData_keyed. exact Hkeyed.
    + apply (getDistrictHistory_keeps Math_sin keyed); [| exact Hkeyed].
      intros e c m Hc. apply fetchDistrictData_keyed. exact Hc.
    + apply (getDistrictComparison_keeps Math_sin keyed); [| exact Hkeyed].
      intros e c d Hc. apply fetchDistrictData_keyed. exact Hc.
Qed.

Lemma keyed_empty : keyed ∅.
Proof. intros key row Hrow. rewrite lookup_empty in Hrow. discriminate Hrow. Qed.

Lemma cache_rows_stay_keyed_witness :
  keyed (table (getDistrictComparison sin_approx false
                  (fun _ => calm_env 1710493200000 (NetworkError "connect ETIMEDOUT"))
                  ∅ ["AP001"; "AP002"] "2024-03")).
Proof.
  apply (cache_rows_stay_keyed sin_approx false
           (calm_env 0 (Response None))
           (fun _ => calm_env 1710493200000 (NetworkError "connect ETIMEDOUT"))
           ∅ "AP001" "2024-03" 0 0 ["AP001"; "AP002"]).
  exact keyed_empty.
Defined.



(** ** Comparison of districts *)

Section ComparisonRows.

Variable Math_sin : Z -> Q.
Variable READ_ONLY_DB : bool.
Variable envs : nat -> Env.
Variable monthYear : string.
Variable cache : gmap string CacheRow.

(** The rows pushed at iteration [j] for the list [codes]. *)
Lemma comparison_loop_rows rest : forall done sent comparison,
  outcome
    (comparison_loop Math_sin READ_ONLY_DB envs monthYear (length done) rest
       (comparison_table Math_sin READ_ONLY_DB envs monthYear cache (done ++ rest)
          (length done))
       sent comparison)
  = Ok (comparison
        ++ concat
             (map (fun j =>
                     match nth_error (done ++ rest) j with
                     | Some code =>
                         pushed_row
                           (comparison_fetch Math_sin READ_ONLY_DB envs monthYear cache
                              (done ++ rest) j code) code
                     | None => []
                     end)
                (seq (length done) (length rest))))%list.
Proof.
  induction rest as [| c rest IH]; intros done sent comparison.
  - cbn. rewrite app_nil_r. reflexivity.
  - cbn [comparison_loop length seq map concat].
    assert (Hnth : nth_error (done ++ c :: rest) (length done) = Some c).
    { rewrite nth_error_app2 by lia. rewrite Nat.sub_diag. reflexivity. }
    rewrite Hnth.
    specialize (IH (done ++ [c])%list).
    rewrite <- app_assoc in IH. cbn [app] in IH.
    rewrite length_app in IH. cbn [length] in IH.
    replace (length done + 1)%nat with (S (length done)) in IH by lia.
    cbn [comparison_table] in IH. rewrite Hnth in IH.
    rewrite IH. unfold pushed_row, comparison_fetch.
    destruct (outcome (fetchDistrictData _ _ _ _ c monthYear)).
    + rewrite <- app_assoc. reflexivity.
    + reflexivity.
Qed.

End ComparisonRows.

Lemma fetchDistrictData_returns Math_sin READ_ONLY_DB env cache districtCode monthYear :
  db_get_error env = None ->
  READ_ONLY_DB = true \/ db_run_error env = None ->
  exists d,
    outcome (fetchDistrictData Math_sin READ_ONLY_DB env cache districtCode monthYear)
    = Ok d.
Proof.
  intros Hget Hrun.
  destruct (getCachedData env cache (cache_key districtCode monthYear))
    as [[b |] | err] eqn:Hread.
  - rewrite (fetchDistrictData_hit _ _ _ _ _ _ _ Hread). eexists; reflexivity.
  - rewrite (fetchDistrictData_miss _ _ _ _ _ _ Hread). cbn zeta.
    destruct Hrun as [-> | ->]; [| destruct READ_ONLY_DB]; eexists; reflexivity.
  - unfold getCachedData in Hread. rewrite Hget in Hread.
    destruct (cache !! _) as [row |]; [destruct (text_gt _ _) |]; discriminate.
Qed.

(** X6: [getDistrictComparison] never throws. Its rows are, in the order of
    the request, those of the district codes whose fetch returned, each
    under the code that was asked for; the codes whose fetch threw are
    left out, down to an empty list when every cache read fails. *)
Theorem getDistrictComparison_rows :
  forall (Math_sin : Z -> Q) (READ_ONLY_DB : bool) (envs : nat -> Env)
         (cache : gmap string CacheRow) (districtCodes : list string)
         (monthYear : string),
    exists rows : list Comparison.row,
      outcome (getDistrictComparison Math_sin READ_ONLY_DB envs cache districtCodes
                 monthYear) = Ok rows /\
      rows = concat
               (map (fun j =>
                       match nth_error districtCodes j with
                       | Some code =>
                           pushed_row
                             (comparison_fetch Math_sin READ_ONLY_DB envs monthYear
                                cache districtCodes j code) code
                       | None => []
                       end)
                  (seq 0 (length districtCodes))) /\
      sublist (map Comparison.district_code rows) districtCodes /\
      (length rows <= length districtCodes)%nat /\
      ((forall i, db_get_error (envs i) <> None) -> rows = []).
Proof.
  intros Math_sin READ_ONLY_DB envs cache districtCodes monthYear.
  pose proof (comparison_loop_rows Math_sin READ_ONLY_DB envs monthYear cache
                districtCodes [] [] []) as Hloop.
  cbn [length app comparison_table] in Hloop.
  eexists. split; [| split; [reflexivity |]].
  - unfold getDistrictComparison. rewrite Hloop. exact Hloop.
  - set (fetch := comparison_fetch Math_sin READ_ONLY_DB envs monthYear cache districtCodes).
    assert (Hsub : forall codes k,
              (forall j c, nth_error codes j = Some c ->
                           nth_error districtCodes (k + j) = Some c) ->
              sublist
                (map Comparison.district_code
                   (concat (map (fun j =>
                                   match nth_error districtCodes j with
                                   | Some code => pushed_row (fetch j code) code
                                   | None => []
                                   end) (seq k (length codes)))))
                codes).
    { induction codes as [| c codes IH]; intros k Hk; [constructor |].
      cbn [length seq map concat]. rewrite map_app.
      pose proof (Hk 0%nat c eq_refl) as H0. rewrite Nat.add_0_r in H0. rewrite H0.
      assert (Hrest : sublist
                (map Comparison.district_code
                   (concat (map (fun j =>
                                   match nth_error districtCodes j with
                                   | Some code => pushed_row (fetch j code) code
                                   | None => []
                                   end) (seq (S k) (length codes)))))
                codes).
      { apply IH. intros j c' Hj. replace (S k + j)%nat with (k + S j)%nat by lia.
        apply Hk. exact Hj. }
      unfold pushed_row at 1. destruct (outcome (fetch k c)).
      - cbn [map app Comparison.district_code row_of_data].
        apply sublist_skip. exact Hrest.
      - cbn [map app]. apply sublist_cons. exact Hrest. }
    pose proof (Hsub districtCodes 0%nat (fun j c H => H)) as Hsublist.
    split; [exact Hsublist |]. split.
    + apply sublist_length in Hsublist. rewrite length_map in Hsublist. exact Hsublist.
    + intros Hfail.
      assert (Hnil : forall l,
                concat (map (fun j =>
                               match nth_error districtCodes j with
                               | Some code => pushed_row (fetch j code) code
                               | None => []
                               end) l) = []).
      { induction l as [| j l IH]; [reflexivity |]. cbn [map concat]. rewrite IH.
        destruct (nth_error districtCodes j) as [c |]; [| reflexivity].
        unfold pushed_row, fetch, comparison_fetch.
        destruct (db_get_error (envs j)) as [err |] eqn:Herr;
          [| exfalso; exact (Hfail j Herr)].
        rewrite (fetchDistrictData_read_error _ _ _ _ _ _ _ Herr). reflexivity. }
      apply Hnil.
Qed.

(** X7: When the database raises no error, the comparison has exactly one row
    for each requested code, in the order of the request, whatever the
    upstream does: an upstream failure never drops a district. *)
Theorem getDistrictComparison_complete :
  forall (Math_sin : Z -> Q) (READ_ONLY_DB : bool) (envs : nat -> Env)
         (cache : gmap string CacheRow) (districtCodes : list string)
         (monthYear : string),
    (forall i, db_get_error (envs i) = None) ->
    (READ_ONLY_DB = true \/ forall i, db_run_error (envs i) = None) ->
    exists rows : list Comparison.row,
      outcome (getDistrictComparison Math_sin READ_ONLY_DB envs cache districtCodes
                 monthYear) = Ok rows /\
      map Comparison.district_code rows = districtCodes /\
      length rows = length districtCodes.
Proof.
  intros Math_sin READ_ONLY_DB envs cache districtCodes monthYear Hget Hrun.
  pose proof (comparison_loop_rows Math_sin READ_ONLY_DB envs monthYear cache
                districtCodes [] [] []) as Hloop.
  cbn [length app comparison_table] in Hloop.
  eexists. split; [unfold getDistrictComparison; rewrite Hloop; exact Hloop |].
  set (fetch := comparison_fetch Math_sin READ_ONLY_DB envs monthYear cache districtCodes).
  assert (Hall : forall codes k,
            (forall j c, nth_error codes j = Some c ->
                         nth_error districtCodes (k + j) = Some c) ->
            map Comparison.district_code
              (concat (map (fun j =>
                              match nth_error districtCodes j with
                              | Some code => pushed_row (fetch j code) code
                              | None => []
                              end) (seq k (length codes))))
            = codes).
  { induction codes as [| c codes IH]; intros k Hk; [reflexivity |].
    cbn [length seq map concat]. rewrite map_app.
    pose proof (Hk 0%nat c eq_refl) as H0. rewrite Nat.add_0_r in H0. rewrite H0.
    rewrite IH by (intros j c' Hj; replace (S k + j)%nat with (k + S j)%nat by lia;
                   apply Hk; exact Hj).
    unfold pushed_row, fetch, comparison_fetch.
    destruct (fetchDistrictData_returns Math_sin READ_ONLY_DB (envs k)
                (comparison_table Math_sin READ_ONLY_DB envs monthYear cache
                   districtCodes k) c monthYear (Hget k)) as [d ->].
    { destruct Hrun as [-> | Hrun]; [left; reflexivity | right; apply Hrun]. }
    reflexivity. }
  pose proof (Hall districtCodes 0%nat (fun j c H => H)) as Hcodes.
  split; [exact Hcodes |].
  rewrite <- Hcodes at 2. rewrite length_map. reflexivity.
Qed.

Lemma getDistrictComparison_complete_witness :
  exists rows : list Comparison.row,
    outcome (getDistrictComparison sin_approx false
               (fun _ => calm_env 1710493200000 (NetworkError "connect ETIMEDOUT"))
               ∅ ["AP001"; "AP009"; "AP013"] "2024-03") = Ok rows /\
    map Comparison.district_code rows = ["AP001"; "AP009"; "AP013"] /\
    length rows = 3%nat.
Proof.
  apply (getDistrictComparison_complete sin_approx false
           (fun _ => calm_env 1710493200000 (NetworkError "connect ETIMEDOUT"))
           ∅ ["AP001"; "AP009"; "AP013"] "2024-03").
  - intros i. reflexivity.
  - right. intros i. reflexivity.
Defined.

Lemma getDistrictComparison_rows_witness :
  outcome (getDistrictComparison sin_approx false (fun _ => env_read_fails) ∅
             ["AP001"; "AP002"] "2024-03") = Ok [].
Proof.
  destruct (getDistrictComparison_rows sin_approx false (fun _ => env_read_fails) ∅
              ["AP001"; "AP002"] "2024-03") as (rows & Hout & _ & _ & _ & Hempty).
  rewrite Hout. f_equal. apply Hempty. intros i. discriminate.
Defined.

(** ** Rows of the upstream answer *)

Lemma filter_result_app {A : Type} (p : A -> result bool) (l1 l2 : list A) :
  filter_result p (l1 ++ l2)
  = bind (filter_result p l1)
      (fun k1 => bind (filter_result p l2) (fun k2 => Ok (k1 ++ k2)%list)).
Proof.
  induction l1 as [| x l1 IH]; cbn [app filter_result].
  - unfold bind. destruct (filter_result p l2); reflexivity.
  - rewrite IH. unfold bind. destruct (p x); [| reflexivity].
    destruct (filter_result p l1); [| reflexivity].
    destruct (filter_result p l2); [| reflexivity].
    destruct a; reflexivity.
Qed.

Lemma filter_result_total {A : Type} (p : A -> result bool) (l : list A) :
  Forall (fun x => is_ok (p x) = true) l -> exists kept, filter_result p l = Ok kept.
Proof.
  induction 1 as [| x l Hx _ [kept IH]]; [eexists; reflexivity |].
  cbn [filter_result]. destruct (p x) as [keep |]; [| discriminate Hx].
  rewrite IH. eexists; reflexivity.
Qed.

Lemma filter_result_throws {A : Type} (p : A -> result bool) (l : list A) :
  Exists (fun x => is_ok (p x) = false) l -> is_ok (filter_result p l) = false.
Proof.
  induction 1 as [x l Hx | x l _ IH]; cbn [filter_result].
  - destruct (p x); [discriminate Hx | reflexivity].
  - destruct (p x); [| reflexivity]. cbn [bind].
    destruct (filter_result p l); [discriminate IH | reflexivity].
Qed.

Lemma filter_result_head {A : Type} (p : A -> result bool) (l : list A) r kept :
  filter_result p l = Ok (r :: kept) -> p r = Ok true.
Proof.
  induction l as [| x l IH]; cbn [filter_result]; [discriminate |].
  destruct (p x) as [keep |] eqn:Hx; [| discriminate]. cbn [bind].
  destruct (filter_result p l) as [k |]; [| discriminate]. cbn [bind].
  destruct keep; intros H.
  - injection H as <- _. exact Hx.
  - injection H as H. apply IH. rewrite H. reflexivity.
Qed.

Lemma processAPIData_of_filter now records districtCode monthYear r kept :
  filter_result (matches_district districtCode) records = Ok (r :: kept) ->
  processAPIData now records districtCode monthYear
  = processAPIData now [r] districtCode monthYear.
Proof.
  intros Hfilter.
  pose proof (filter_result_head _ _ _ _ Hfilter) as Hr.
  unfold processAPIData. rewrite Hfilter. cbn [filter_result]. rewrite Hr.
  reflexivity.
Qed.

(** X8: [processAPIData] builds the bundle from the first row that matches
    the district, whatever the rows before and after it hold, as long as
    every label is a string or missing. One row whose [district_name] is
    not a string (a number, a boolean) makes the call throw, even when
    another row matches. *)
Theorem processAPIData_first_match :
  (forall now before r after districtCode monthYear,
      Forall (fun x => matches_district districtCode x = Ok false) before ->
      matches_district districtCode r = Ok true ->
      Forall (fun x => is_ok (matches_district districtCode x) = true) after ->
      processAPIData now (before ++ r :: after) districtCode monthYear
      = processAPIData now [r] districtCode monthYear /\
      is_ok (processAPIData now [r] districtCode monthYear) = true) /\
  (forall now records districtCode monthYear,
      Exists (fun x => exists v, x !! "district_name" = Some v /\
                         match v with JsNum _ | JsBool _ => True | _ => False end)
        records ->
      is_ok (processAPIData now records districtCode monthYear) = false).
Proof.
  split.
  - intros now before r after districtCode monthYear Hbefore Hr Hafter.
    destruct (filter_result_total _ _ Hafter) as [kept Hkept].
    assert (Hfilter : filter_result (matches_district districtCode)
                        (before ++ r :: after) = Ok (r :: kept)).
    { rewrite filter_result_app, (filter_result_none _ _ Hbefore).
      cbn [bind filter_result]. rewrite Hr, Hkept. reflexivity. }
    split; [exact (processAPIData_of_filter _ _ _ _ _ _ Hfilter) |].
    unfold processAPIData. cbn [filter_result]. rewrite Hr. reflexivity.
  - intros now records districtCode monthYear Hbad.
    unfold processAPIData.
    assert (Hthrow : is_ok (filter_result (matches_district districtCode) records)
                     = false).
    { apply filter_result_throws. eapply Exists_impl; [exact Hbad |].
      intros x (v & Hv & Hkind). unfold matches_district, lowered_district_name, field.
      rewrite Hv. destruct v; try contradiction; reflexivity. }
    destruct (filter_result _ records); [discriminate Hthrow | reflexivity].
Qed.

Lemma processAPIData_first_match_witness :
  processAPIData 0 [labelled_row "Krishna"; ntr_row; labelled_row "Guntur"]
    "AP004" "2024-03"
  = processAPIData 0 [ntr_row] "AP004" "2024-03" /\
  is_ok (processAPIData 0 [ntr_row; {[ "district_name" := JsNum 7 ]}]
           "AP004" "2024-03") = false.
Proof.
  destruct processAPIData_first_match as [Hfirst Hthrow]. split.
  - apply (Hfirst 0 [labelled_row "Krishna"] ntr_row [labelled_row "Guntur"]).
    + repeat constructor.
    + reflexivity.
    + repeat constructor.
  - apply Hthrow. apply Exists_cons_tl, Exists_cons_hd.
    exists (JsNum 7). split; [reflexivity | exact I].
Defined.

Lemma registry_names_truthy d :
  In d andhraPradeshDistricts -> truthy (JString (name d)) = true.
Proof. intros Hin. each_district Hin; reflexivity. Qed.



(** ** Values of the score *)

Lemma household_points_values households :
  exists k, household_points households = 5 * k /\ 0 <= k <= 4.
Proof.
  unfold household_points.
  repeat match goal with |- context [JS.gt ?a ?b] => destruct (JS.gt a b) end;
    [exists 4 | exists 3 | exists 2 | exists 1 | exists 0]; lia.
Qed.

Lemma efficiency_points_values avg :
  exists k, efficiency_points avg = 5 * k /\ 0 <= k <= 4.
Proof.
  unfold efficiency_points.
  repeat match goal with |- context [JS.gt ?a ?b] => destruct (JS.gt a b) end;
    [exists 4 | exists 3 | exists 2 | exists 1 | exists 0]; lia.
Qed.

Lemma household_points_top households :
  household_points households = 20 <-> JS.gt households (of_Z 30000) = true.
Proof.
  unfold household_points.
  repeat match goal with |- context [JS.gt ?a ?b] => destruct (JS.gt a b) end;
    split; intros H; try reflexivity; try discriminate H; lia.
Qed.

Lemma efficiency_points_top avg :
  efficiency_points avg = 20 <-> JS.gt avg (of_Z 25) = true.
Proof.
  unfold efficiency_points.
  repeat match goal with |- context [JS.gt ?a ?b] => destruct (JS.gt a b) end;
    split; intros H; try reflexivity; try discriminate H; lia.
Qed.



(** X11: On the home page a score of a bundle built from upstream rows is
    never shown in red, and it is shown in green exactly from 80 on. *)
Theorem upstream_score_colour :
  forall now records districtCode monthYear b,
    processAPIData now records districtCode monthYear = Ok b ->
    exists s : Z,
      performance_score b = JNumber (of_Z s) /\
      getPerformanceColor (of_Z s) <> "#EF4444" /\
      (getPerformanceColor (of_Z s) = "#10B981" <-> 80 <= s).
Proof.
  intros now records districtCode monthYear b Hb.
  destruct (processAPIData_score _ _ _ _ _ Hb) as [d Hd].
  exists (calculatePerformanceScore d). split; [exact Hd |].
  pose proof (calculatePerformanceScore_range d) as [Hlo _].
  generalize dependent (calculatePerformanceScore d). intros s _ Hlo.
  unfold getPerformanceColor, ge_number, of_Z.
  assert (H60 : Qle_bool (inject_Z 60) (inject_Z s) = true)
    by (apply Qle_bool_iff; rewrite <- Zle_Qle; exact Hlo).
  rewrite H60.
  destruct (Qle_bool (inject_Z 80) (inject_Z s)) eqn:H80.
  - apply Qle_bool_iff in H80. rewrite <- Zle_Qle in H80.
    split; [discriminate |]. split; [intros _; exact H80 | reflexivity].
  - split; [discriminate |]. split; [discriminate |].
    intros H. exfalso. apply not_true_iff_false in H80. apply H80.
    apply Qle_bool_iff. rewrite <- Zle_Qle. exact H.
Qed.

Lemma upstream_score_colour_witness :
  exists s : Z,
    JNumber (of_Z 85) = JNumber (of_Z s) /\
    getPerformanceColor (of_Z s) <> "#EF4444" /\
    (getPerformanceColor (of_Z s) = "#10B981" <-> 80 <= s).
Proof.
  destruct (processAPIData 0 [ntr_row] "AP004" "2024-03") as [b |] eqn:Hb;
    [| vm_compute in Hb; discriminate Hb].
  assert (Hscore : performance_score b = JNumber (of_Z 85))
    by (vm_compute in Hb; injection Hb as <-; reflexivity).
  rewrite <- Hscore.
  apply (upstream_score_colour 0 [ntr_row] "AP004" "2024-03" b Hb).
Defined.

(** ** Fields of a generated bundle *)

Lemma mul_of_Z a b : JS.mul (of_Z a) (of_Z b) = of_Z (a * b).
Proof.
  unfold JS.mul, lift2, of_Z. f_equal.
  rewrite <- (inject_Z_Qred (a * b)). apply Qred_complete.
  rewrite inject_Z_mult. reflexivity.
Qed.

Lemma floor_of_Z z : JS.floor (of_Z z) = of_Z z.
Proof. unfold JS.floor, of_Z. rewrite Qfloor_Z. reflexivity. Qed.

Lemma Qfloor_between x z :
  (inject_Z z <= x)%Q -> (x < inject_Z (z + 1))%Q -> Qfloor x = z.
Proof.
  intros Hlo Hhi.
  pose proof (Qfloor_le x) as H1. pose proof (Qlt_floor x) as H2.
  assert (Qfloor x < z + 1)
    by (rewrite Zlt_Qlt; eapply Qle_lt_trans; [exact H1 | exact Hhi]).
  assert (z < Qfloor x + 1)
    by (rewrite Zlt_Qlt; eapply Qle_lt_trans; [exact Hlo | exact H2]).
  lia.
Qed.

Lemma round_of_Z z : JS.round (of_Z z) = of_Z z.
Proof.
  unfold JS.round, of_Z. f_equal. f_equal. apply Qfloor_between.
  - lra.
  - rewrite inject_Z_plus. change (inject_Z 1) with 1%Q. lra.
Qed.

Lemma div_of_Z_exact a k : k <> 0 -> JS.div (of_Z (a * k)) (of_Z k) = of_Z a.
Proof.
  intros Hk. unfold of_Z. rewrite div_by_integer by exact Hk. f_equal.
  rewrite <- (inject_Z_Qred a). apply Qred_complete.
  rewrite inject_Z_mult. field. intros H0. apply Hk.
  unfold Qeq in H0. cbn in H0. lia.
Qed.

Section GeneratedFields.

Variable Math_sin : Z -> Q.

Lemma seed_fraction_range s :
  (0 <= seed_fraction Math_sin s)%Q /\ (seed_fraction Math_sin s < 1)%Q.
Proof.
  unfold seed_fraction. cbn zeta.
  set (X := Qred (Math_sin s * inject_Z 10000)).
  pose proof (Qfloor_le X) as Hlo. pose proof (Qlt_floor X) as Hhi.
  rewrite inject_Z_plus in Hhi. change (inject_Z 1) with 1%Q in Hhi.
  rewrite (Qred_correct (X - inject_Z (Qfloor X))). split; lra.
Qed.

(** A draw scales the one fraction of the seed to its range. *)
Lemma seededRandom_value s lo hi :
  seededRandom Math_sin (Some s) lo hi
  = of_Z (lo + Qfloor (Qred (seed_fraction Math_sin s * inject_Z (hi - lo + 1)))).
Proof.
  unfold seededRandom, seed_fraction. cbn [JS.floor JS.sub JS.mul lift2 of_Z].
  apply add_of_Z.
Qed.

Lemma draw_mono s1 s2 n :
  0 <= n ->
  (seed_fraction Math_sin s1 <= seed_fraction Math_sin s2)%Q ->
  Qfloor (Qred (seed_fraction Math_sin s1 * inject_Z n))
  <= Qfloor (Qred (seed_fraction Math_sin s2 * inject_Z n)).
Proof.
  intros Hn Hle. apply Qfloor_resp_le. rewrite !Qred_correct.
  apply Qmult_le_compat_r; [exact Hle |].
  change 0%Q with (inject_Z 0). rewrite <- Zle_Qle. exact Hn.
Qed.

End GeneratedFields.

(** X12: For a district code of at least three characters and a period of at
    least seven, the generated bundle is consistent: between 15000 and
    45000 households, between 18 and 28 days for each, a wage between 200
    and 250; the person days are their product, the amount is person days
    times wage, in crores; and the average amount per household, being
    that amount in crores over the households, always rounds to 0. *)
Theorem generateMockData_fields :
  forall (Math_sin : Z -> Q) (now : Z) (districtCode monthYear : string),
    (3 <= String.length districtCode)%nat ->
    (7 <= String.length monthYear)%nat ->
    let b := generateMockData Math_sin now districtCode monthYear in
    exists h d w : Z,
      15000 <= h <= 45000 /\ 18 <= d <= 28 /\ 200 <= w <= 250 /\
      total_households b = JNumber (of_Z h) /\
      avg_days_per_household b = JNumber (of_Z d) /\
      average_wage_rate b = JNumber (of_Z w) /\
      total_person_days b = JNumber (of_Z (h * d)) /\
      total_amount_spent b
        = JNumber (Num (Qred (inject_Z (h * d * w) / inject_Z 10000000))) /\
      avg_amount_per_household b = JNumber (of_Z 0) /\
      total_individuals_worked b = JNumber (of_Z (Qfloor (inject_Z h * (6 # 5)))) /\
      women_persondays b = JNumber (of_Z (Qfloor (inject_Z (h * d) * (2 # 5)))).
Proof.
  intros Math_sin now districtCode monthYear Hcode Hperiod b.
  destruct (seed_of_defined districtCode monthYear Hcode Hperiod) as [s Hs].
  unfold b, generateMockData. rewrite Hs.
  destruct (seededRandom_range Math_sin s 15000 45000) as (h & -> & Hh); [lia |].
  destruct (seededRandom_range Math_sin s 18 28) as (d & -> & Hd); [lia |].
  destruct (seededRandom_range Math_sin s 200 250) as (w & -> & Hw); [lia |].
  exists h, d, w.
  cbn [total_households avg_days_per_household average_wage_rate total_person_days
       total_amount_spent avg_amount_per_household total_individuals_worked
       women_persondays].
  rewrite !mul_of_Z, !floor_of_Z, !mul_of_Z, round_of_Z.
  rewrite (div_of_Z_exact d 100) by lia.
  repeat (split; [first [assumption | reflexivity] |]).
  assert (Hamount : JS.div (of_Z (h * d * w)) (of_Z 10000000)
                    = Num (Qred (inject_Z (h * d * w) / inject_Z 10000000))).
  { unfold of_Z. apply div_by_integer. lia. }
  rewrite Hamount. split; [| split].
  - unfold of_Z at 1. rewrite div_by_integer by lia.
    cbn [JS.mul lift2 of_Z JS.round].
    assert (Hzero : Qfloor
              (Qred (Qred (Qred (inject_Z (h * d * w) / inject_Z 10000000) / inject_Z h)
                     * inject_Z 100) + (1 # 2)) = 0).
    { apply Qfloor_between.
      - rewrite !Qred_correct.
        assert (0 <= inject_Z (h * d * w) / inject_Z 10000000 / inject_Z h * inject_Z 100)%Q.
        { apply Qmult_le_0_compat; [| discriminate].
          apply Qle_shift_div_l; [change 0%Q with (inject_Z 0); rewrite <- Zlt_Qlt; lia |].
          rewrite Qmult_0_l.
          apply Qle_shift_div_l; [reflexivity |]. rewrite Qmult_0_l.
          change 0%Q with (inject_Z 0). rewrite <- Zle_Qle. nia. }
        change (inject_Z 0) with 0%Q. lra.
      - rewrite !Qred_correct. change (inject_Z (0 + 1)) with 1%Q.
        assert (Heq : inject_Z (h * d * w) / inject_Z 10000000 / inject_Z h * inject_Z 100
                      == inject_Z (d * w) / inject_Z 100000).
        { rewrite !inject_Z_mult. field.
          intros H0. unfold Qeq in H0. cbn in H0. lia. }
        rewrite Heq.
        assert (inject_Z (d * w) / inject_Z 100000 < 1 # 2)%Q.
        { apply Qlt_shift_div_r; [reflexivity |].
          unfold Qlt, Qmult, inject_Z. cbn [Qnum Qden]. nia. }
        lra. }
    rewrite Hzero. reflexivity.
  - unfold of_Z at 1. cbn [JS.mul JS.floor lift2].
    rewrite (Qfloor_comp _ _ (Qred_correct _)). reflexivity.
  - unfold of_Z at 1. cbn [JS.mul JS.floor lift2].
    rewrite (Qfloor_comp _ _ (Qred_correct _)). reflexivity.
Qed.

Lemma generateMockData_fields_witness :
  avg_amount_per_household (generateMockData sin_approx 0 "AP004" "2024-03")
  = JNumber (of_Z 0).
Proof.
  destruct (generateMockData_fields sin_approx 0 "AP004" "2024-03")
    as (h & d & w & _ & _ & _ & _ & _ & _ & _ & _ & Hzero & _);
    [cbn; lia | cbn; lia | exact Hzero].
Defined.

(** X13: All draws of a call scale the same fraction, so the drawn fields of
    any two generated bundles are ordered alike: the bundle with more
    households has at least the wage, the score, the completed and
    ongoing works and the payment percentage of the other. *)
Theorem generateMockData_fields_ordered_alike :
  forall (Math_sin : Z -> Q) (now1 now2 : Z) (code1 period1 code2 period2 : string)
         (h1 h2 : Z),
    (3 <= String.length code1)%nat -> (7 <= String.length period1)%nat ->
    (3 <= String.length code2)%nat -> (7 <= String.length period2)%nat ->
    let b1 := generateMockData Math_sin now1 code1 period1 in
    let b2 := generateMockData Math_sin now2 code2 period2 in
    total_households b1 = JNumber (of_Z h1) ->
    total_households b2 = JNumber (of_Z h2) ->
    h1 < h2 ->
    Forall2 (fun f1 f2 =>
               exists x1 x2 : Z,
                 fst f1 = JNumber (of_Z x1) /\ fst f2 = JNumber (of_Z x2) /\
                 x1 <= x2 /\ snd f1 = snd f2 /\
                 fst (snd f1) <= x1 /\ x2 <= snd (snd f1))
      (drawn_fields b1) (drawn_fields b2).
Proof.
  intros Math_sin now1 now2 code1 period1 code2 period2 h1 h2 Hc1 Hp1 Hc2 Hp2 b1 b2.
  destruct (seed_of_defined code1 period1 Hc1 Hp1) as [s1 Hs1].
  destruct (seed_of_defined code2 period2 Hc2 Hp2) as [s2 Hs2].
  unfold b1, b2, drawn_fields, generateMockData. rewrite Hs1, Hs2.
  cbn [total_households average_wage_rate performance_score completed_works
       ongoing_works payment_within_15_days].
  rewrite !seededRandom_value. intros H1 H2 Hlt.
  injection H1 as H1. injection H2 as H2.
  assert (Hfrac : (seed_fraction Math_sin s1 <= seed_fraction Math_sin s2)%Q).
  { destruct (Qlt_le_dec (seed_fraction Math_sin s2) (seed_fraction Math_sin s1))
      as [Hgt | Hle]; [| exact Hle].
    exfalso.
    pose proof (draw_mono Math_sin s2 s1 (45000 - 15000 + 1) ltac:(lia)
                  (Qlt_le_weak _ _ Hgt)).
    lia. }
  pose proof (seed_fraction_range Math_sin s1) as [Hf1 _].
  pose proof (seed_fraction_range Math_sin s2) as [_ Hf2].
  assert (Hdraw : forall lo hi, lo <= hi ->
            exists x1 x2 : Z,
              JNumber (of_Z (lo + Qfloor (Qred (seed_fraction Math_sin s1
                                                  * inject_Z (hi - lo + 1)))))
              = JNumber (of_Z x1) /\
              JNumber (of_Z (lo + Qfloor (Qred (seed_fraction Math_sin s2
                                                  * inject_Z (hi - lo + 1)))))
              = JNumber (of_Z x2) /\
              x1 <= x2 /\ (lo, hi) = (lo, hi) /\ lo <= x1 /\ x2 <= hi).
  { intros lo hi Hrange. eexists _, _. split; [reflexivity |]. split; [reflexivity |].
    pose proof (draw_mono Math_sin s1 s2 (hi - lo + 1) ltac:(lia) Hfrac) as Hmono.
    assert (Hlow : 0 <= Qfloor (Qred (seed_fraction Math_sin s1
                                        * inject_Z (hi - lo + 1)))).
    { rewrite <- (Qfloor_Z 0). apply Qfloor_resp_le. rewrite Qred_correct.
      apply Qmult_le_0_compat; [exact Hf1 |].
      change 0%Q with (inject_Z 0). rewrite <- Zle_Qle. lia. }
    assert (Hhigh : Qfloor (Qred (seed_fraction Math_sin s2
                                    * inject_Z (hi - lo + 1))) < hi - lo + 1).
    { rewrite Zlt_Qlt. eapply Qle_lt_trans; [apply Qfloor_le |].
      rewrite Qred_correct.
      assert (Hn : (0 < inject_Z (hi - lo + 1))%Q)
        by (change 0%Q with (inject_Z 0); rewrite <- Zlt_Qlt; lia).
      rewrite <- (Qmult_1_l (inject_Z (hi - lo + 1))) at 2.
      apply Qmult_lt_compat_r; assumption. }
    repeat split; lia. }
  repeat (constructor; [cbn [fst snd]; apply Hdraw; lia |]).
  constructor.
Qed.

Lemma generateMockData_fields_ordered_alike_witness :
  Forall2 (fun f1 f2 =>
             exists x1 x2 : Z,
               fst f1 = JNumber (of_Z x1) /\ fst f2 = JNumber (of_Z x2) /\
               x1 <= x2 /\ snd f1 = snd f2 /\
               fst (snd f1) <= x1 /\ x2 <= snd (snd f1))
    (drawn_fields (generateMockData sin_approx 0 "AP005" "2024-01"))
    (drawn_fields (generateMockData sin_approx 0 "AP004" "2024-03")).
Proof.
  apply (generateMockData_fields_ordered_alike sin_approx 0 0
           "AP005" "2024-01" "AP004" "2024-03" 25295 31319);
    try (cbn; lia); vm_compute; reflexivity.
Defined.

Lemma charCodeAt_outside s i :
  (String.length s <= i)%nat -> charCodeAt s i = None.
Proof.
  revert i. induction s as [| a s IH]; intros i Hi; [destruct i; reflexivity |].
  destruct i as [| i]; cbn in Hi; [lia |].
  unfold charCodeAt. cbn. specialize (IH i ltac:(lia)). unfold charCodeAt in IH.
  destruct (String.get i s); [discriminate IH | reflexivity].
Qed.

(** X14: For a district code of fewer than three characters, or a period of
    fewer than seven, the seed is NaN: every numeric field of the
    generated bundle is NaN, and is read back from the cache as null. *)
Theorem generateMockData_short_input :
  forall (Math_sin : Z -> Q) (now : Z) (districtCode monthYear : string),
    (String.length districtCode < 3)%nat \/ (String.length monthYear < 7)%nat ->
    let b := generateMockData Math_sin now districtCode monthYear in
    numeric_fields b = repeat (JNumber NaN) 17 /\
    numeric_fields (JSON_roundtrip b) = repeat JNull 17 /\
    data_source b = "mock_data".
Proof.
  intros Math_sin now districtCode monthYear Hshort b.
  assert (Hseed : seed_of districtCode monthYear = None).
  { unfold seed_of. destruct Hshort as [Hc | Hm].
    - rewrite (charCodeAt_outside districtCode 2) by lia. reflexivity.
    - destruct (charCodeAt districtCode 2); [| reflexivity].
      destruct (charCodeAt monthYear 5); [| reflexivity].
      rewrite (charCodeAt_outside monthYear 6) by lia. reflexivity. }
  unfold b, generateMockData. rewrite Hseed. repeat split.
Qed.

Lemma generateMockData_short_input_witness :
  numeric_fields (generateMockData sin_approx 0 "AP" "2024-03") = repeat (JNumber NaN) 17.
Proof.
  apply (generateMockData_short_input sin_approx 0 "AP" "2024-03").
  left. cbn. lia.
Defined.

(** X15: The seed reads the third character of the district code only, which
    is the same for all thirteen districts of the registry: for one
    period, the generated bundles of any two of them have the same
    numeric fields, and differ in the code and the name only. *)
Theorem generateMockData_same_for_all_districts :
  forall (Math_sin : Z -> Q) (now1 now2 : Z) (d1 d2 : District) (monthYear : string),
    In d1 andhraPradeshDistricts -> In d2 andhraPradeshDistricts ->
    let b1 := generateMockData Math_sin now1 (code d1) monthYear in
    let b2 := generateMockData Math_sin now2 (code d2) monthYear in
    numeric_fields b1 = numeric_fields b2 /\
    district_name b1 = JString (name d1) /\ district_name b2 = JString (name d2) /\
    financial_year b1 = financial_year b2 /\ month b1 = month b2.
Proof.
  intros Math_sin now1 now2 d1 d2 monthYear H1 H2 b1 b2.
  assert (Hchar : forall d, In d andhraPradeshDistricts ->
            charCodeAt (code d) 2 = Some 48 /\ find_district (code d) = Some d).
  { intros d Hd. each_district Hd; split; reflexivity. }
  destruct (Hchar d1 H1) as [Hc1 Hf1]. destruct (Hchar d2 H2) as [Hc2 Hf2].
  split; [| split; [| split; [| split]]].
  - apply numeric_fields_seed. unfold seed_of. rewrite Hc1, Hc2. reflexivity.
  - unfold b1, generateMockData; cbn [district_name]. rewrite Hf1.
    unfold or_value. rewrite registry_names_truthy by exact H1. reflexivity.
  - unfold b2, generateMockData; cbn [district_name]. rewrite Hf2.
    unfold or_value. rewrite registry_names_truthy by exact H2. reflexivity.
  - reflexivity.
  - reflexivity.
Qed.

Lemma generateMockData_same_for_all_districts_witness :
  numeric_fields (generateMockData sin_approx 0 "AP001" "2024-03")
  = numeric_fields (generateMockData sin_approx 5 "AP013" "2024-03").
Proof.
  apply (generateMockData_same_for_all_districts sin_approx 0 5
           (mkDistrict "AP001" "Anantapur" (146819 # 10000) (776006 # 10000))
           (mkDistrict "AP013" "YSR Kadapa" (144667 # 10000) (788167 # 10000))
           "2024-03").
  - left. reflexivity.
  - do 12 right. left. reflexivity.
Defined.

(** ** Labels that match *)

Lemma lower_char_idempotent c : lower_char (lower_char c) = lower_char c.
Proof.
  destruct c as [[] [] [] [] [] [] [] []]; reflexivity.
Qed.

Lemma toLowerCase_idempotent s : toLowerCase (toLowerCase s) = toLowerCase s.
Proof.
  induction s as [| c s IH]; [reflexivity |].
  cbn [toLowerCase]. rewrite lower_char_idempotent, IH. reflexivity.
Qed.

Lemma toLowerCase_append a b :
  toLowerCase (String.append a b) = String.append (toLowerCase a) (toLowerCase b).
Proof.
  induction a as [| c a IH]; [reflexivity |].
  rewrite append_cons. cbn [toLowerCase]. rewrite append_cons, IH. reflexivity.
Qed.

Lemma prefix_append sub s post :
  String.prefix sub s = true -> String.prefix sub (String.append s post) = true.
Proof.
  revert s. induction sub as [| a sub IH]; intros s H; [destruct s, post; reflexivity |].
  destruct s as [| b s]; [discriminate H |].
  rewrite append_cons. cbn [String.prefix] in *.
  destruct (Ascii.ascii_dec a b); [apply IH; exact H | discriminate H].
Qed.

Lemma includes_append_r s post sub :
  includes s sub = true -> includes (String.append s post) sub = true.
Proof.
  induction s as [| c s IH]; intros H.
  - apply includes_empty in H. subst sub. destruct post; reflexivity.
  - cbn [includes] in H. apply orb_true_iff in H as [H | H].
    + rewrite append_cons. rewrite <- append_cons. 
      destruct (String.append (String c s) post) eqn:E;
        cbn [includes]; rewrite <- E, (prefix_append _ _ _ H); reflexivity.
    + rewrite append_cons. cbn [includes]. rewrite (IH H). apply orb_true_r.
Qed.

Lemma includes_append_l pre s sub :
  includes s sub = true -> includes (String.append pre s) sub = true.
Proof.
  intros H. induction pre as [| c pre IH]; [exact H |].
  rewrite append_cons. cbn [includes]. rewrite IH. apply orb_true_r.
Qed.

(** X16: The matcher reads a label through its lower-case form only, and a
    label that matches a district still matches it when text is put
    before or after it: the district is recognised inside a longer
    upstream name, in any letter case. *)
Theorem matcher_case_and_context :
  (forall districtCode label1 label2,
      toLowerCase label1 = toLowerCase label2 ->
      matches_district districtCode (labelled_row label1)
      = matches_district districtCode (labelled_row label2)) /\
  (forall districtCode label,
      matches_district districtCode (labelled_row (toLowerCase label))
      = matches_district districtCode (labelled_row label)) /\
  (forall districtCode label before after,
      matches_district districtCode (labelled_row label) = Ok true ->
      matches_district districtCode
        (labelled_row (String.append before (String.append label after)))
      = Ok true).
Proof.
  assert (Hlabel : forall districtCode label,
            matches_district districtCode (labelled_row label)
            = Ok (existsb (fun candidate => includes (toLowerCase label) candidate)
                    (spec_candidates districtCode))).
  { intros districtCode label. apply matches_district_label.
    unfold labelled_row. apply lookup_singleton_eq. }
  split; [| split].
  - intros districtCode label1 label2 Heq. rewrite !Hlabel, Heq. reflexivity.
  - intros districtCode label. rewrite !Hlabel, toLowerCase_idempotent. reflexivity.
  - intros districtCode label before after. rewrite !Hlabel.
    intros H. injection H as H. f_equal.
    apply existsb_exists in H as (candidate & Hin & Hc).
    apply existsb_exists. exists candidate. split; [exact Hin |].
    rewrite !toLowerCase_append. apply includes_append_l, includes_append_r. exact Hc.
Qed.

Lemma matcher_case_and_context_witness :
  matches_district "AP007"
    (labelled_row (String.append "SRI POTTI SRIRAMULU " (String.append "Nellore" " Dist")))
  = Ok true.
Proof.
  apply (proj2 (proj2 matcher_case_and_context) "AP007" "Nellore"
           "SRI POTTI SRIRAMULU " " Dist").
  reflexivity.
Defined.

(** ** Periods as upstream filters *)

Lemma code_of_digit_char d : code_of (digit_char d) = 48 + d mod 10.
Proof.
  unfold code_of, digit_char.
  pose proof (Z.mod_pos_bound d 10 ltac:(lia)).
  rewrite N_ascii_embedding by lia. lia.
Qed.

Lemma digit_of_digit_char d : digit_of (digit_char d) = Some (d mod 10).
Proof.
  unfold digit_of. rewrite code_of_digit_char.
  pose proof (Z.mod_pos_bound d 10 ltac:(lia)).
  replace (48 <=? 48 + d mod 10) with true by (symmetry; apply Z.leb_le; lia).
  replace (48 + d mod 10 <=? 57) with true by (symmetry; apply Z.leb_le; lia).
  cbn. f_equal. lia.
Qed.

Lemma digit_of_code c a :
  digit_of c = Some a -> 48 <= code_of c <= 57 /\ a = code_of c - 48.
Proof.
  unfold digit_of.
  destruct (48 <=? code_of c) eqn:Hlo; [| discriminate].
  destruct (code_of c <=? 57) eqn:Hhi; [| discriminate].
  cbn [andb]. intros H. injection H as <-.
  apply Z.leb_le in Hlo, Hhi. lia.
Qed.

Lemma skip_whitespace_digit c a t :
  digit_of c = Some a -> skip_whitespace (String c t) = String c t.
Proof.
  intros H. apply digit_of_code in H as [[Hlo Hhi] _].
  cbn [skip_whitespace]. unfold is_whitespace.
  replace (code_of c <=? 13) with false by (symmetry; apply Z.leb_gt; lia).
  replace (code_of c =? 32) with false by (symmetry; apply Z.eqb_neq; lia).
  replace (code_of c =? 160) with false by (symmetry; apply Z.eqb_neq; lia).
  rewrite andb_false_r. reflexivity.
Qed.

Lemma read_sign_digit c a t :
  digit_of c = Some a -> read_sign (String c t) = (1, String c t).
Proof.
  intros H. apply digit_of_code in H as [[Hlo _] _].
  destruct c as [[] [] [] [] [] [] [] []]; try reflexivity;
    exfalso; apply Hlo; reflexivity.
Qed.

Lemma span_digits_digit c a t :
  digit_of c = Some a ->
  span_digits digit_of (String c t)
  = (a :: fst (span_digits digit_of t), snd (span_digits digit_of t)).
Proof.
  intros H. cbn [span_digits]. rewrite H.
  destruct (span_digits digit_of t); reflexivity.
Qed.

(** [parseInt] on a text that starts with two decimal digits. *)
Lemma parseInt_string_digits c1 c2 a1 a2 t :
  digit_of c1 = Some a1 -> digit_of c2 = Some a2 ->
  parseInt_string (String c1 (String c2 t))
  = Some (digits_value 10 (a1 :: a2 :: fst (span_digits digit_of t))).
Proof.
  intros H1 H2. unfold parseInt_string.
  rewrite (skip_whitespace_digit _ _ _ H1), (read_sign_digit _ _ _ H1).
  assert (Hspan : span_digits digit_of (String c1 (String c2 t))
                  = (a1 :: a2 :: fst (span_digits digit_of t),
                     snd (span_digits digit_of t))).
  { rewrite (span_digits_digit _ _ _ H1), (span_digits_digit _ _ _ H2). reflexivity. }
  apply digit_of_code in H2 as [[Hlo2 Hhi2] _].
  apply digit_of_code in H1 as [[Hlo1 Hhi1] _].
  destruct c2 as [[] [] [] [] [] [] [] []];
    try (exfalso; apply Hhi2; reflexivity);
    try (exfalso; apply Hlo2; reflexivity);
    destruct c1 as [[] [] [] [] [] [] [] []];
    try (exfalso; apply Hhi1; reflexivity);
    try (exfalso; apply Hlo1; reflexivity);
    cbv beta iota zeta; rewrite Hspan, Z.mul_1_l; reflexivity.
Qed.

Lemma not_dash_digit_char d : Ascii.eqb (digit_char d) "-"%char = false.
Proof.
  destruct (Ascii.eqb (digit_char d) "-"%char) eqn:E; [| reflexivity].
  apply Ascii.eqb_eq in E. pose proof (code_of_digit_char d) as H.
  rewrite E in H. pose proof (Z.mod_pos_bound d 10 ltac:(lia)).
  change (code_of "-"%char) with 45 in H. lia.
Qed.

Lemma append_pad4 y rest :
  String.append (pad4 y) rest
  = String (digit_char (y / 100 / 10))
      (String (digit_char (y / 100))
         (String (digit_char (y / 10)) (String (digit_char y) rest))).
Proof. reflexivity. Qed.

Lemma split_dash_period y m :
  split_dash (String.append (pad4 y) (String "-" (pad2 m))) = [pad4 y; pad2 m].
Proof.
  rewrite append_pad4. unfold pad2, split_dash.
  repeat (cbn [split_dash_from]; rewrite ?not_dash_digit_char).
  reflexivity.
Qed.

Lemma parseInt_pad4 y : 0 <= y < 10000 -> parseInt_string (pad4 y) = Some y.
Proof.
  intros Hy. rewrite <- (append_empty_r (pad4 y)), append_pad4.
  rewrite (parseInt_string_digits _ _ _ _ _ (digit_of_digit_char _)
             (digit_of_digit_char _)).
  cbn [span_digits]. rewrite !digit_of_digit_char. cbn [span_digits fst].
  f_equal. unfold digits_value. cbn [fold_left].
  Z.div_mod_to_equations. lia.
Qed.

Lemma parseInt_pad2 m : 0 <= m < 100 -> parseInt_string (pad2 m) = Some m.
Proof.
  intros Hm. unfold pad2.
  rewrite (parseInt_string_digits _ _ _ _ _ (digit_of_digit_char _)
             (digit_of_digit_char _)).
  cbn [span_digits fst]. f_equal. unfold digits_value. cbn [fold_left].
  Z.div_mod_to_equations. lia.
Qed.

Lemma append_assoc_string a b c :
  String.append (String.append a b) c = String.append a (String.append b c).
Proof.
  induction a as [| x a IH]; [reflexivity |].
  rewrite !append_cons, IH. reflexivity.
Qed.

Lemma rev_app_append s t :
  String.rev_app s t = String.append (String.rev s) t.
Proof.
  unfold String.rev. revert t. induction s as [| c s IH]; intros t; [reflexivity |].
  cbn [String.rev_app]. rewrite (IH (String c t)), (IH (String c EmptyString)).
  rewrite append_assoc_string. reflexivity.
Qed.

Lemma split_dash_from_plain acc s :
  (forall i, String.get i s <> Some "-"%char) ->
  split_dash_from acc s = [String.append (String.rev acc) s].
Proof.
  revert acc. induction s as [| c s IH]; intros acc Hplain.
  - cbn [split_dash_from]. rewrite append_empty_r. reflexivity.
  - cbn [split_dash_from].
    destruct (Ascii.eqb c "-"%char) eqn:E.
    + apply Ascii.eqb_eq in E. subst c. exfalso. apply (Hplain 0%nat). reflexivity.
    + rewrite IH by (intros i; apply (Hplain (S i))).
      f_equal. unfold String.rev at 1. cbn [String.rev_app].
      rewrite rev_app_append, append_assoc_string. reflexivity.
Qed.

(** X17: A period of year [y] (0 to 9999) and month [m], written YYYY-MM, is
    sent upstream as the financial year "y-(y+1)", whatever the month,
    and as the English short name of the month when [m] is 1 to 12; for
    another month number, and for a period without a dash, the month
    filter is undefined. *)
Theorem request_of_period :
  (forall y m, 0 <= y < 10000 -> 0 <= m < 100 ->
     request_of (String.append (pad4 y) (String "-" (pad2 m)))
     = (String.append (pad4 y) (String.append "-" (pretty (y + 1))),
        if (1 <=? m) && (m <=? 12)
        then array_get monthNames (Z.to_nat (m - 1))
        else JUndefined)) /\
  (forall idx, 0 <= idx < 120000 ->
     format_YYYY_MM idx
     = String.append (pad4 (idx / 12)) (String "-" (pad2 (idx mod 12 + 1))) /\
     exists monthName,
       nth_error monthNames (Z.to_nat (idx mod 12)) = Some monthName /\
       snd (request_of (format_YYYY_MM idx)) = JString monthName) /\
  (forall s, (forall i, String.get i s <> Some "-"%char) ->
     snd (request_of s) = JUndefined).
Proof.
  assert (Hfirst : forall y m, 0 <= y < 10000 -> 0 <= m < 100 ->
     request_of (String.append (pad4 y) (String "-" (pad2 m)))
     = (String.append (pad4 y) (String.append "-" (pretty (y + 1))),
        if (1 <=? m) && (m <=? 12)
        then array_get monthNames (Z.to_nat (m - 1))
        else JUndefined)).
  { intros y m Hy Hm. unfold request_of, year_piece. rewrite split_dash_period.
    unfold finYear_of. rewrite (parseInt_pad4 y Hy).
    cbn [option_map int_to_string array_get nth_error].
    unfold monthName_of. cbn [parseInt]. rewrite (parseInt_pad2 m Hm).
    f_equal.
    destruct (1 <=? m) eqn:H1; [| reflexivity]. cbn [andb].
    destruct (m <=? 12) eqn:H12; [reflexivity |].
    apply Z.leb_gt in H12. unfold array_get.
    replace (nth_error monthNames (Z.to_nat (m - 1))) with (@None string);
      [reflexivity |].
    symmetry. apply nth_error_None. cbn [length monthNames]. lia. }
  split; [exact Hfirst | split].
  - intros idx Hidx. split; [reflexivity |].
    unfold format_YYYY_MM.
    pose proof (Z.mod_pos_bound idx 12 ltac:(lia)) as Hmod.
    assert (Hy : 0 <= idx / 12 < 10000) by (Z.div_mod_to_equations; lia).
    change (String.append (pad4 (idx / 12)) (String "-" (pad2 (idx mod 12 + 1))))
      with (String.append (pad4 (idx / 12)) (String "-" (pad2 (idx mod 12 + 1)))).
    rewrite (Hfirst (idx / 12) (idx mod 12 + 1) Hy ltac:(lia)). cbn [snd].
    replace ((1 <=? idx mod 12 + 1) && (idx mod 12 + 1 <=? 12)) with true
      by (symmetry; apply andb_true_iff; split; apply Z.leb_le; lia).
    replace (idx mod 12 + 1 - 1) with (idx mod 12) by lia.
    unfold array_get.
    destruct (nth_error monthNames (Z.to_nat (idx mod 12))) as [monthName |] eqn:E.
    + exists monthName. split; reflexivity.
    + apply nth_error_None in E. cbn [length monthNames] in E. lia.
  - intros s Hplain. unfold request_of. cbn [snd].
    unfold split_dash. rewrite (split_dash_from_plain EmptyString s Hplain).
    reflexivity.
Qed.

Lemma request_of_period_witness :
  request_of "2024-03" = ("2024-2025", JString "Mar") /\
  snd (request_of "202403") = JUndefined.
Proof.
  destruct request_of_period as (Hfirst & _ & Hplain). split.
  - apply (Hfirst 2024 3); lia.
  - apply Hplain. intros i.
    do 6 (destruct i as [| i]; [discriminate |]). discriminate.
Defined.

(** ** Location-based district detection *)

Section NearestDistrict.

Variable Math_sqrt : Q -> Q.
Variable Math_random : nat -> Q.
Variable latitude longitude : value.

Lemma distance_to_numeric la lo d :
  to_number latitude = Num la -> to_number longitude = Num lo ->
  exists q, distance_to Math_sqrt latitude longitude d = Num (Math_sqrt q) /\
            q == squared_distance la lo d.
Proof.
  intros Hla Hlo. unfold distance_to. rewrite Hla, Hlo.
  cbn [JS.sub JS.mul JS.add lift2 sqrt_number].
  set (q := Qred (Qred (Qred (lat d - la) * Qred (lat d - la))
                  + Qred (Qred (lng d - lo) * Qred (lng d - lo)))).
  assert (Hq : q == squared_distance la lo d).
  { unfold q, squared_distance. rewrite !Qred_correct. reflexivity. }
  assert (Hpos : (0 <= q)%Q).
  { rewrite Hq. unfold squared_distance.
    generalize (lat d - la)%Q (lng d - lo)%Q. intros a b. nra. }
  apply Qle_bool_iff in Hpos. rewrite Hpos.
  exists q. split; [reflexivity | exact Hq].
Qed.

Lemma distance_to_NaN d :
  to_number latitude = NaN \/ to_number longitude = NaN ->
  distance_to Math_sqrt latitude longitude d = NaN.
Proof.
  intros [H | H]; unfold distance_to; rewrite H.
  - reflexivity.
  - destruct (to_number latitude); reflexivity.
Qed.

Lemma scan_snoc l d :
  scan_districts Math_sqrt Math_random latitude longitude (l ++ [d])
  = scan_step Math_sqrt Math_random latitude longitude
      (scan_districts Math_sqrt Math_random latitude longitude l) d.
Proof. unfold scan_districts. rewrite fold_left_app. reflexivity. Qed.

(** After the scan of a non-empty list with numeric coordinates: the
    chosen district is the first one that no other district beats. *)
Lemma scan_districts_numeric la lo l :
  to_number latitude = Num la -> to_number longitude = Num lo ->
  l <> [] ->
  exists d before after draws,
    l = (before ++ d :: after)%list /\
    scan_districts Math_sqrt Math_random latitude longitude l
    = (Some {|
         detected_id := JS.floor (JS.mul (Num (Math_random draws)) (of_Z 1000));
         detected_code := code d;
         detected_name := name d;
         detected_state := "Andhra Pradesh";
         detected_latitude := lat d;
         detected_longitude := lng d
       |},
       Some (distance_to Math_sqrt latitude longitude d), S draws) /\
    (draws < length l)%nat /\
    (forall d', In d' l ->
       JS.gt (distance_to Math_sqrt latitude longitude d)
             (distance_to Math_sqrt latitude longitude d') = false) /\
    (forall d', In d' before ->
       JS.gt (distance_to Math_sqrt latitude longitude d')
             (distance_to Math_sqrt latitude longitude d) = true).
Proof.
  intros Hla Hlo. induction l as [| x l IH] using rev_ind; [congruence |].
  intros _. rewrite scan_snoc.
  destruct (distance_to_numeric la lo x Hla Hlo) as (qx & Hx & _).
  destruct l as [| y l'].
  - exists x, [], [], 0%nat. cbn [scan_districts fold_left scan_step app].
    rewrite Hx. cbn [closer].
    split; [reflexivity |]. split; [reflexivity |]. split; [cbn; lia |]. split.
    + intros d' [<- | []]. rewrite Hx. apply gt_Num_false. apply Qle_refl.
    + intros d' [].
  - destruct (IH ltac:(discriminate)) as (d & before & after & draws & Hl & Hscan
                                            & Hdraws & Hmin & Hfirst).
    rewrite Hscan. cbn [scan_step].
    destruct (distance_to_numeric la lo d Hla Hlo) as (qd & Hd & _).
    rewrite Hx, Hd. cbn [closer].
    destruct (JS.gt (Num (Math_sqrt qd)) (Num (Math_sqrt qx))) eqn:Hcmp.
    + exists x, (y :: l'), [], (S draws).
      split; [reflexivity |]. rewrite Hx.
      split; [reflexivity |]. split; [rewrite length_app; cbn [length] in Hdraws |- *; lia |].
      apply gt_Num in Hcmp. split.
      * intros d' Hin. apply in_app_or in Hin as [Hin | [<- | []]].
        -- specialize (Hmin d' Hin). rewrite Hd in Hmin.
           destruct (distance_to_numeric la lo d' Hla Hlo) as (q' & Hd' & _).
           rewrite Hd' in Hmin |- *. apply gt_Num_false in Hmin.
           apply gt_Num_false. lra.
        -- rewrite Hx. apply gt_Num_false. apply Qle_refl.
      * intros d' Hin. specialize (Hmin d' Hin). rewrite Hd in Hmin.
        destruct (distance_to_numeric la lo d' Hla Hlo) as (q' & Hd' & _).
        rewrite Hd' in Hmin |- *. apply gt_Num_false in Hmin.
        apply gt_Num. lra.
    + exists d, before, (after ++ [x])%list, draws.
      split; [rewrite Hl, <- app_assoc; reflexivity |]. rewrite Hd.
      split; [reflexivity |]. split; [rewrite length_app; cbn [length] in Hdraws |- *; lia |].
      split; [| rewrite <- Hd; exact Hfirst].
      intros d' Hin. apply in_app_or in Hin as [Hin | [<- | []]].
      * rewrite <- Hd. apply Hmin. exact Hin.
      * rewrite Hx. exact Hcmp.
Qed.

Lemma scan_districts_NaN l :
  to_number latitude = NaN \/ to_number longitude = NaN ->
  scan_districts Math_sqrt Math_random latitude longitude l = (None, None, 0%nat).
Proof.
  intros Hnan. induction l as [| x l IH] using rev_ind; [reflexivity |].
  rewrite scan_snoc, IH. cbn [scan_step]. rewrite (distance_to_NaN x Hnan).
  reflexivity.
Qed.

End NearestDistrict.


